(** * QKart backend: the cart service (cart.service.js)

    A shallow embedding of [getCartByUser], [addProductToCart],
    [updateProductInCart], [deleteProductFromCart] and [checkout], and the
    properties of the cart / checkout engine proved about them.

    Modelling conventions.
    - JavaScript numbers (cost, quantity, walletMoney) are modelled by the
      integers among the finite doubles: a value is a [Z], and every
      arithmetic operation rounds its exact result to the nearest double (53
      significant bits, ties to even), as IEEE 754 prescribes. Amounts that
      are not integral, infinities and NaN are outside the model.
    - Mongo collections are finite maps keyed by the unique [email] field;
      the product collection is a list searched by [_id].
    - An [async] function is a computation in the monad [M]: it threads the
      store and may throw. A [save()] that is awaited is applied when it is
      issued and recorded in a journal, and is taken to succeed; a [save()]
      that is not awaited is recorded as pending: it lands, or is rejected,
      after the function has gone on, in no fixed order with the other
      pending writes. *)

From stdpp Require Import gmap strings list fin_maps.
From Stdlib Require Import ZArith Lia.

#[local] Open Scope string_scope.
#[local] Open Scope Z_scope.
#[local] Open Scope list_scope.

(** ** Documents *)

Module Product.
(** The fields of a product document the service reads. *)
Record t := mk { _id : string; cost : Z }.
End Product.

Module CartItem.
(** An element of [cart.cartItems]: the embedded product document, as it
    was when pushed, and a quantity. *)
Record t := mk { product : Product.t; quantity : Z }.
End CartItem.

Module Cart.
Record t := mk
  { email : string; cartItems : list CartItem.t; paymentOption : string }.
End Cart.

Module User.
(** Modelled from the spec: the User model is not part of the sources;
    [addressSet] is the spec's address-configured flag, the answer of
    [user.hasSetNonDefaultAddress()]. *)
Record t := mk { email : string; walletMoney : Z; addressSet : bool }.
End User.

Definition hasSetNonDefaultAddress (user : User.t) : bool :=
  User.addressSet user.

(** ** Errors *)

(** The constants of the http-status package used by the service, and
    [CONFLICT], which the package also provides. *)
Definition BAD_REQUEST : Z := 400.
Definition NOT_FOUND : Z := 404.
Definition CONFLICT : Z := 409.
Definition INTERNAL_SERVER_ERROR : Z := 500.

(** What a [throw] carries: an [ApiError] built by the service, or an error
    raised by the driver (a rejected [Cart.create]). *)
Inductive Exn :=
| ApiError (statusCode : Z) (message : string)
| MongoError (message : string).

Inductive Result (A : Type) :=
| Ok (a : A)
| Throw (e : Exn).
Arguments Ok {A} a.
Arguments Throw {A} e.

(** The error kinds of the specification, read off the status code. *)
Inductive ErrorKind := NotFound | InvalidRequest | Conflict.

Definition spec_error_kind (e : Exn) : option ErrorKind :=
  match e with
  | ApiError code _ =>
      if code =? NOT_FOUND then Some NotFound
      else if code =? BAD_REQUEST then Some InvalidRequest
      else if code =? CONFLICT then Some Conflict
      else None
  | MongoError _ => None
  end.

(** ** The store *)

(** The part of a cart document other than its key. *)
Record CartRow := mkRow
  { row_cartItems : list CartItem.t; row_paymentOption : string }.

Record DB := mkDB
  { carts : gmap string CartRow;
    users : gmap string User.t;
    products : list Product.t }.

(** A write sent to the store. *)
Inductive DbWrite :=
| InsertCart (c : Cart.t)
| SaveCart (c : Cart.t)
| SaveUser (u : User.t).

Definition put_cart (c : Cart.t) (d : DB) : DB :=
  {| carts := <[Cart.email c := mkRow (Cart.cartItems c) (Cart.paymentOption c)]> (carts d);
     users := users d;
     products := products d |}.

Definition put_user (u : User.t) (d : DB) : DB :=
  {| carts := carts d;
     users := <[User.email u := u]> (users d);
     products := products d |}.

Definition apply_write (d : DB) (w : DbWrite) : DB :=
  match w with
  | InsertCart c => put_cart c d
  | SaveCart c => put_cart c d
  | SaveUser u => put_user u d
  end.

(** The store, the journal of the writes applied to it so far, and the
    writes that have been issued without being awaited and have not landed
    yet. *)
Record World := mkWorld
  { db : DB; journal : list DbWrite; pending : list DbWrite }.

(** ** The monad of the service *)

Definition M (A : Type) : Type := World → Result A * World.

#[global] Instance M_ret : MRet M := λ A a σ, (Ok a, σ).

#[global] Instance M_bind : MBind M := λ A B f m σ,
  match m σ with
  | (Ok a, σ') => f a σ'
  | (Throw e, σ') => (Throw e, σ')
  end.

Definition throw {A} (e : Exn) : M A := λ σ, (Throw e, σ).

(** [try { m } catch (err) { h err }] *)
Definition try_catch {A} (m : M A) (h : Exn → M A) : M A := λ σ,
  match m σ with
  | (Ok a, σ') => (Ok a, σ')
  | (Throw e, σ') => h e σ'
  end.

Definition read {A} (f : DB → A) : M A := λ σ, (Ok (f (db σ)), σ).

(** [await doc.save()]: the write is applied before the function goes on. *)
Definition send (w : DbWrite) : M unit := λ σ,
  (Ok tt, {| db := apply_write (db σ) w; journal := journal σ ++ [w];
             pending := pending σ |}).

(** [doc.save()] without [await]: the write is issued and the function goes
    on at once; the store is not touched yet. *)
Definition detach (w : DbWrite) : M unit := λ σ,
  (Ok tt, {| db := db σ; journal := journal σ; pending := pending σ ++ [w] |}).

(** ** The model classes *)

Definition lookup_cart (email : string) (d : DB) : option Cart.t :=
  (λ r, Cart.mk email (row_cartItems r) (row_paymentOption r)) <$> carts d !! email.

(** [Cart.findOne({ email })]: the document or [null]. *)
Definition Cart_findOne (email : string) : M (option Cart.t) :=
  read (lookup_cart email).

(** Modelled from the spec: the Cart model is not part of the sources;
    [email] is unique, so [Cart.create] is rejected when the user already
    has a cart. Rejections for other reasons (a lost connection, a failed
    validation) are outside the model, here as for every awaited write. *)
Definition Cart_create (c : Cart.t) : M Cart.t := λ σ,
  match carts (db σ) !! Cart.email c with
  | Some _ => throw (MongoError "duplicate key") σ
  | None => (_ ← send (InsertCart c); mret c) σ
  end.

Definition Cart_save (c : Cart.t) : M unit := send (SaveCart c).

(** [user.save()] and [userCart.save()] as [checkout] calls them: not
    awaited. *)
Definition User_save_unawaited (u : User.t) : M unit := detach (SaveUser u).

Definition Cart_save_unawaited (c : Cart.t) : M unit := detach (SaveCart c).

Definition find_product (productId : string) (ps : list Product.t) : option Product.t :=
  List.find (λ p, String.eqb (Product._id p) productId) ps.

(** [Product.findOne({ _id: productId })] and [Product.findById(productId)] *)
Definition Product_findOne (productId : string) : M (option Product.t) :=
  read (λ d, find_product productId (products d)).

Definition Product_findById (productId : string) : M (option Product.t) :=
  read (λ d, find_product productId (products d)).

(** ** Numbers *)

(** The double nearest to the integer [z]: [z] itself up to 2^53, and
    otherwise [z] cut to its 53 leading bits, rounded to nearest with ties
    to the even mantissa. Magnitudes from 2^1024 on, which overflow to an
    infinity, are outside the model. *)
Definition js_round (z : Z) : Z :=
  let a := Z.abs z in
  if a <=? 2 ^ 53 then z
  else
    let e := Z.log2 a - 52 in
    let q := a / 2 ^ e in
    let r := a mod 2 ^ e in
    let half := 2 ^ (e - 1) in
    let q' := if r <? half then q
              else if half <? r then q + 1
              else if Z.even q then q else q + 1 in
    Z.sgn z * (q' * 2 ^ e).

(** [x + y], [x - y] and [x * y] on numbers. *)
Definition js_add (x y : Z) : Z := js_round (x + y).
Definition js_sub (x y : Z) : Z := js_round (x - y).
Definition js_mul (x y : Z) : Z := js_round (x * y).

(** ** The loops of the service *)

(** [for (let i = 0; i < cartItems.length; i++)
       if (productId == cartItems[i].product._id) { productIndex = i; break; }]
    started with [productIndex = -1]; [i] is the index of the head of
    [items]. *)
Fixpoint firstIndexFrom (productId : string) (items : list CartItem.t) (i : Z) : Z :=
  match items with
  | [] => -1
  | item :: rest =>
      if String.eqb productId (Product._id (CartItem.product item)) then i
      else firstIndexFrom productId rest (i + 1)
  end.

(** The same loop without the [break]: the last match wins. *)
Fixpoint lastIndexFrom (productId : string) (items : list CartItem.t) (i index : Z) : Z :=
  match items with
  | [] => index
  | item :: rest =>
      lastIndexFrom productId rest (i + 1)
        (if String.eqb productId (Product._id (CartItem.product item)) then i else index)
  end.

(** [cartTotal += cartProductList[index].product.cost * cartProductList[index].quantity] *)
Fixpoint cartTotalFrom (items : list CartItem.t) (cartTotal : Z) : Z :=
  match items with
  | [] => cartTotal
  | item :: rest =>
      cartTotalFrom rest
        (js_add cartTotal
           (js_mul (Product.cost (CartItem.product item)) (CartItem.quantity item)))
  end.

(** [cartItems[index].quantity = quantity] *)
Definition setQuantity (index : Z) (quantity : Z) (items : list CartItem.t) : list CartItem.t :=
  alter (λ item, CartItem.mk (CartItem.product item) quantity) (Z.to_nat index) items.

(** [cartItems.splice(index, 1)] *)
Definition splice1 (index : Z) (items : list CartItem.t) : list CartItem.t :=
  delete (Z.to_nat index) items.

(** ** The service *)

Section CartService.

(** [config.default_payment_option]; the configuration is not part of the
    sources. *)
Variable default_payment_option : string.

Definition getCartByUser (user : User.t) : M Cart.t :=
  cart ← Cart_findOne (User.email user);
  match cart with
  | None => throw (ApiError NOT_FOUND "User does not have a cart")
  | Some cart => mret cart
  end.

(** [addProductToCart] from its first [await] on: [found] is what
    [Cart.findOne] answered. Another request of the same user may have run
    between the answer and this continuation. *)
Definition addProductToCart_found (found : option Cart.t)
    (user : User.t) (productId : string) (quantity : Z) : M Cart.t :=
  cart ← match found with
         | Some cart => mret (Some cart)
         | None =>
             try_catch
               (cart ← Cart_create
                         (Cart.mk (User.email user) [] default_payment_option);
                mret (Some cart))
               (λ err,
                  throw (ApiError INTERNAL_SERVER_ERROR
                    "User cart creation failed because user already have a cart"))
         end;
  match cart with
  | None => throw (ApiError INTERNAL_SERVER_ERROR "User does not have a cart")
  | Some cart =>
      let productIndex := firstIndexFrom productId (Cart.cartItems cart) 0 in
      if productIndex =? -1 then
        product ← Product_findOne productId;
        match product with
        | None =>
            throw (ApiError BAD_REQUEST "Product doesn't exist in database")
        | Some product =>
            let cart := Cart.mk (Cart.email cart)
                          (Cart.cartItems cart ++ [CartItem.mk product quantity])
                          (Cart.paymentOption cart) in
            _ ← Cart_save cart;
            mret cart
        end
      else
        throw (ApiError BAD_REQUEST
          "Product already in cart. Use the cart sidebar to update or remove product from cart")
  end.

Definition addProductToCart (user : User.t) (productId : string) (quantity : Z)
    : M Cart.t :=
  found ← Cart_findOne (User.email user);
  addProductToCart_found found user productId quantity.

Definition updateProductInCart (user : User.t) (productId : string) (quantity : Z)
    : M Cart.t :=
  cart ← Cart_findOne (User.email user);
  match cart with
  | None =>
      throw (ApiError BAD_REQUEST
        "User does not have a cart. Use POST to create cart and add a product")
  | Some cart =>
      product ← Product_findById productId;
      match product with
      | None => throw (ApiError BAD_REQUEST "Product doesn't exist in database")
      | Some _ =>
          let index := lastIndexFrom productId (Cart.cartItems cart) 0 (-1) in
          if index =? -1 then throw (ApiError BAD_REQUEST "Product not in cart")
          else
            let cart := Cart.mk (Cart.email cart)
                          (setQuantity index quantity (Cart.cartItems cart))
                          (Cart.paymentOption cart) in
            _ ← Cart_save cart;
            mret cart
      end
  end.

Definition deleteProductFromCart (user : User.t) (productId : string) : M unit :=
  cart ← Cart_findOne (User.email user);
  match cart with
  | None => throw (ApiError BAD_REQUEST "User does not have a cart")
  | Some cart =>
      let index := lastIndexFrom productId (Cart.cartItems cart) 0 (-1) in
      if index =? -1 then throw (ApiError BAD_REQUEST "Product not in cart")
      else
        Cart_save (Cart.mk (Cart.email cart)
                     (splice1 index (Cart.cartItems cart))
                     (Cart.paymentOption cart))
  end.

(** [checkout] mutates its argument; the model returns the user object as
    it is when the function returns normally. The two [save()] calls are
    not awaited: when [checkout] returns, both writes are pending. *)
Definition checkout (user : User.t) : M User.t :=
  userCart ← Cart_findOne (User.email user);
  match userCart with
  | None => throw (ApiError NOT_FOUND "User does not have cart")
  | Some userCart =>
      if Z.of_nat (length (Cart.cartItems userCart)) =? 0 then
        throw (ApiError BAD_REQUEST "User does not have any Items in cart.")
      else
        let addressIsSet := hasSetNonDefaultAddress user in
        if negb addressIsSet then
          throw (ApiError BAD_REQUEST "user need to add address")
        else
          let cartProductList := Cart.cartItems userCart in
          if Z.of_nat (length cartProductList) =? 0 then
            throw (ApiError BAD_REQUEST "Empty cart, add products to checkout")
          else
            let cartTotal := cartTotalFrom cartProductList 0 in
            if User.walletMoney user <? cartTotal then
              throw (ApiError BAD_REQUEST "Insufficient wallet balance")
            else
              let user := User.mk (User.email user)
                            (js_sub (User.walletMoney user) cartTotal)
                            (User.addressSet user) in
              _ ← User_save_unawaited user;
              let userCart := Cart.mk (Cart.email userCart) []
                                (Cart.paymentOption userCart) in
              _ ← Cart_save_unawaited userCart;
              mret user
  end.

End CartService.

(** ** Requests, runs and observations *)

Inductive Request :=
| AddItem (user : User.t) (productId : string) (quantity : Z)
| UpdateItem (user : User.t) (productId : string) (quantity : Z)
| DeleteItem (user : User.t) (productId : string)
| Checkout (user : User.t).

Definition replay (d : DB) (ws : list DbWrite) : DB := foldl apply_write d ws.

(** The writes a call has issued without awaiting them. *)
Definition issued {A} (m : M A) (σ : World) : list DbWrite :=
  drop (length (pending σ)) (pending (m σ).2).

(** The world once the pending writes issued after the first [k] have
    landed, all of them and in the order they were issued. *)
Definition land_after (k : nat) (σ : World) : World :=
  {| db := replay (db σ) (drop k (pending σ));
     journal := journal σ ++ drop k (pending σ);
     pending := take k (pending σ) |}.

(** The world after a call of [checkout] once the writes it issued have
    landed in the order they were issued. *)
Definition checkout_landed (user : User.t) (σ : World) : World :=
  land_after (length (pending σ)) (checkout user σ).2.

(** The world after a request has been served, whether it threw or not:
    requests are served one after the other, and the writes a checkout leaves
    pending have landed, in the order issued, before the next request. *)
Definition serve (dpo : string) (σ : World) (r : Request) : World :=
  match r with
  | AddItem user productId quantity => (addProductToCart dpo user productId quantity σ).2
  | UpdateItem user productId quantity => (updateProductInCart user productId quantity σ).2
  | DeleteItem user productId => (deleteProductFromCart user productId σ).2
  | Checkout user => checkout_landed user σ
  end.

Definition serve_all (dpo : string) (σ : World) (rs : list Request) : World :=
  foldl (serve dpo) σ rs.

(** A store without carts. *)
Definition initial (ps : list Product.t) (us : gmap string User.t) : World :=
  mkWorld (mkDB ∅ us ps) [] [].

(** The stores that can be seen once a call has returned: the store it left
    with some of the writes it issued applied, in any order. An issued write
    that is not applied has not landed yet, or was rejected. These are the
    states another request, or a restart after a crash, can find. *)
Definition observable {A} (m : M A) (σ : World) (d : DB) : Prop :=
  ∃ ws : list DbWrite, ws ⊆+ issued m σ ∧ d = replay (db (m σ).2) ws.

(** The product identifiers of the line items, in order. *)
Definition lineIds (items : list CartItem.t) : list string :=
  (λ item, Product._id (CartItem.product item)) <$> items.



(** Swap the catalogue, as the product service does when a price changes. *)
Definition with_products (ps : list Product.t) (σ : World) : World :=
  mkWorld (mkDB (carts (db σ)) (users (db σ)) ps) (journal σ) (pending σ).




(** ** The example of the specification *)

Module Example.
Definition productA := Product.mk "productA" 10.
Definition productB := Product.mk "productB" 5.
Definition alice := User.mk "alice@example.com" 100 true.
Definition dpo := "PAYMENT_OPTION_DEFAULT".
Definition σ0 := initial [productA; productB] ∅.
Definition σ2 :=
  serve_all dpo σ0 [AddItem alice "productA" 2; AddItem alice "productB" 1].
Definition σ3 := serve dpo σ2 (Checkout alice).
End Example.

(** A cart whose exact total, 2^53 + 1, is not a double. *)
Module Large.
Definition big := Product.mk "big" (2 ^ 53).
Definition one := Product.mk "one" 1.
Definition carol (walletMoney : Z) := User.mk "carol@example.com" walletMoney true.
Definition σ :=
  serve_all Example.dpo (initial [big; one] ∅)
    [AddItem (carol 0) "big" 1; AddItem (carol 0) "one" 1].
End Large.

(** ** Notions used by the statements *)

Definition debited (user : User.t) (items : list CartItem.t) : User.t :=
  User.mk (User.email user)
          (js_sub (User.walletMoney user) (cartTotalFrom items 0))
          (User.addressSet user).

Definition cleared (cart : Cart.t) : Cart.t :=
  Cart.mk (Cart.email cart) [] (Cart.paymentOption cart).

(** Every call of [checkout] takes one of the five paths. *)
Inductive checkout_path (user : User.t) (σ : World) : Prop :=
| path_no_cart :
    lookup_cart (User.email user) (db σ) = None →
    checkout user σ = (Throw (ApiError NOT_FOUND "User does not have cart"), σ) →
    checkout_path user σ
| path_empty cart :
    lookup_cart (User.email user) (db σ) = Some cart →
    Cart.cartItems cart = [] →
    checkout user σ =
      (Throw (ApiError BAD_REQUEST "User does not have any Items in cart."), σ) →
    checkout_path user σ
| path_no_address cart :
    lookup_cart (User.email user) (db σ) = Some cart →
    Cart.cartItems cart ≠ [] →
    hasSetNonDefaultAddress user = false →
    checkout user σ = (Throw (ApiError BAD_REQUEST "user need to add address"), σ) →
    checkout_path user σ
| path_insufficient cart :
    lookup_cart (User.email user) (db σ) = Some cart →
    Cart.cartItems cart ≠ [] →
    hasSetNonDefaultAddress user = true →
    User.walletMoney user < cartTotalFrom (Cart.cartItems cart) 0 →
    checkout user σ =
      (Throw (ApiError BAD_REQUEST "Insufficient wallet balance"), σ) →
    checkout_path user σ
| path_ok cart :
    lookup_cart (User.email user) (db σ) = Some cart →
    Cart.cartItems cart ≠ [] →
    hasSetNonDefaultAddress user = true →
    cartTotalFrom (Cart.cartItems cart) 0 ≤ User.walletMoney user →
    checkout user σ =
      (Ok (debited user (Cart.cartItems cart)),
       {| db := db σ;
          journal := journal σ;
          pending := pending σ ++
                       [SaveUser (debited user (Cart.cartItems cart));
                        SaveCart (cleared cart)] |}) →
    checkout_path user σ.

Definition stored (w : DbWrite) (σ : World) : World :=
  {| db := apply_write (db σ) w; journal := journal σ ++ [w];
     pending := pending σ |}.

Definition pushed (cart : Cart.t) (product : Product.t) (quantity : Z) : Cart.t :=
  Cart.mk (Cart.email cart)
    (Cart.cartItems cart ++ [CartItem.mk product quantity])
    (Cart.paymentOption cart).

Definition already_in_cart : string :=
  "Product already in cart. Use the cart sidebar to update or remove product from cart".

(** Every stored cart has line items satisfying [P]. *)
Definition carts_satisfy (P : list CartItem.t → Prop) (d : DB) : Prop :=
  ∀ (email : string) (cart : Cart.t),
    lookup_cart email d = Some cart → P (Cart.cartItems cart).

(** What a request needs of [P] to keep it. *)
Definition keeps (P : list CartItem.t → Prop) (r : Request) : Prop :=
  match r with
  | AddItem _ productId quantity =>
      ∀ items product,
        P items → productId ∉ lineIds items → Product._id product = productId →
        P (items ++ [CartItem.mk product quantity])
  | UpdateItem _ productId quantity =>
      ∀ items (n : nat), P items → P (setQuantity (Z.of_nat n) quantity items)
  | DeleteItem _ productId =>
      ∀ items (n : nat), P items → P (splice1 (Z.of_nat n) items)
  | Checkout _ => True
  end.

Definition distinct_lines (items : list CartItem.t) : Prop :=
  NoDup (lineIds items).

Definition positive_quantities (items : list CartItem.t) : Prop :=
  Forall (λ item, 0 < CartItem.quantity item) items.

Definition positive_request (r : Request) : Prop :=
  match r with
  | AddItem _ _ quantity | UpdateItem _ _ quantity => 0 < quantity
  | DeleteItem _ _ | Checkout _ => True
  end.


(** The user a request is made for. *)
Definition request_user (r : Request) : User.t :=
  match r with
  | AddItem user _ _ | UpdateItem user _ _ | DeleteItem user _ | Checkout user => user
  end.

(** How the line items of a cart can differ before and after one request
    served against the catalogue [ps]. *)
Inductive line_change (ps : list Product.t) (old new : list CartItem.t) : Prop :=
| lines_same : new = old → line_change ps old new
| lines_push productId product quantity :
    productId ∉ lineIds old →
    find_product productId ps = Some product →
    new = old ++ [CartItem.mk product quantity] →
    line_change ps old new
| lines_set (n : nat) quantity :
    new = setQuantity (Z.of_nat n) quantity old → line_change ps old new
| lines_splice (n : nat) :
    new = splice1 (Z.of_nat n) old → line_change ps old new
| lines_clear : new = [] → line_change ps old new.


(** What one request for the email [e] may do to the carts and the
    catalogue of the store [d], giving [d']: the catalogue and the carts of
    the other emails are as before; a cart that existed still exists, with
    its payment option and one change of its lines; a cart that did not
    exist is still missing or was created with the payment option [dpo]. *)
Definition cart_effect (dpo e : string) (d d' : DB) : Prop :=
  products d' = products d ∧
  (∀ e' : string, e' ≠ e → carts d' !! e' = carts d !! e') ∧
  match lookup_cart e d with
  | Some cart =>
      ∃ cart' : Cart.t,
        lookup_cart e d' = Some cart' ∧
        Cart.paymentOption cart' = Cart.paymentOption cart ∧
        line_change (products d) (Cart.cartItems cart) (Cart.cartItems cart')
  | None =>
      lookup_cart e d' = None ∨
      ∃ cart' : Cart.t,
        lookup_cart e d' = Some cart' ∧
        Cart.paymentOption cart' = dpo ∧
        line_change (products d) [] (Cart.cartItems cart')
  end.

(** The request is an add made for the email [e]. *)
Definition adds_for (e : string) (r : Request) : Prop :=
  match r with
  | AddItem user _ _ => User.email user = e
  | UpdateItem _ _ _ | DeleteItem _ _ | Checkout _ => False
  end.

(** ** The passport strategy (config/passport.js) *)

Module Passport.

(** The decoded token: the fields [jwtVerify] reads. *)
Record Payload := mkPayload { type : string; sub : string }.

(** A user document as the lookup hands it over: its [id] and the rest. *)
Record UserDoc := mkUserDoc { id : string; doc : User.t }.

(** What the driver passes to the callback of [User.findOne]: an error, or
    the document or [null]. *)
Inductive FindAnswer :=
| FindError (err : string)
| FindDoc (user : option UserDoc).

(** The second argument of [done]: left out, [false], or a user. *)
Inductive DoneUser := NoUser | FalseUser | TheUser (user : UserDoc).

(** One call [done(err, user, info)]; [err] is the message of the error or
    [None] for [null], [info] the message of the info object if given. *)
Inductive DoneCall :=
| done (err : option string) (user : DoneUser) (info : option string).

(** What a run of [jwtVerify] does: the calls of [done], in order, and the
    error thrown inside the lookup callback, if any. *)
Record Outcome := mkOutcome { calls : list DoneCall; thrown : option Exn }.

(** [jwtVerify(payload, done)], with [ACCESS] for [tokenTypes.ACCESS] and
    [answer] for what [User.findOne] calls back with. The first [if] has no
    [return]: the lookup runs for every payload. *)
Definition jwtVerify (ACCESS : string) (payload : Payload) (answer : FindAnswer)
    : Outcome :=
  let first :=
    if negb (String.eqb (type payload) ACCESS)
    then [done (Some "Invalid token type") FalseUser None]
    else [] in
  let userId := sub payload in
  match answer with
  | FindError err => mkOutcome (first ++ [done (Some err) NoUser None]) None
  | FindDoc (Some user) =>
      if negb (String.eqb (id user) userId)
      then mkOutcome first (Some (ApiError 403 "Trying to access others info"))
      else mkOutcome (first ++ [done None (TheUser user) None]) None
  | FindDoc None =>
      mkOutcome (first ++ [done None FalseUser (Some "user not found")]) None
  end.

End Passport.

(** * Properties *)

(** Unfolding a call of the service. *)
Ltac run_checkout Hcart :=
  unfold checkout, Cart_findOne, read, throw, mbind, M_bind; simpl;
  rewrite Hcart; simpl.

Ltac run_service :=
  unfold addProductToCart, addProductToCart_found, updateProductInCart,
    deleteProductFromCart, getCartByUser, Cart_findOne, Cart_create, Cart_save,
    Product_findOne, Product_findById, try_catch, send, read, throw,
    mbind, M_bind, mret, M_ret; simpl.

(** ** The loops *)




Lemma firstIndexFrom_absent productId items i :
  0 ≤ i →
  firstIndexFrom productId items i = -1 ↔ productId ∉ lineIds items.
Proof.
  revert i. induction items as [|item rest IH]; intros i Hi; simpl.
  - split; [intros _; apply not_elem_of_nil | done].
  - rewrite not_elem_of_cons.
    destruct (String.eqb_spec productId (Product._id (CartItem.product item))) as [Heq|Hne].
    + split; [lia | intros [? _]; done].
    + rewrite (IH (i + 1)) by lia. fold (lineIds rest). tauto.
Qed.

(** The last-match loop returns the starting [index] when nothing matches,
    and otherwise the position of a line item of that product. *)
Lemma lastIndexFrom_spec productId items i index :
  ((productId ∉ lineIds items) ∧ lastIndexFrom productId items i index = index) ∨
  (∃ (n : nat) (item : CartItem.t),
      lastIndexFrom productId items i index = i + Z.of_nat n ∧
      items !! n = Some item ∧
      Product._id (CartItem.product item) = productId).
Proof.
  revert i index. induction items as [|item rest IH]; intros i index; simpl.
  - left. split; [apply not_elem_of_nil | done].
  - destruct (IH (i + 1)
               (if String.eqb productId (Product._id (CartItem.product item))
                then i else index))
      as [[Hnot Hres]|(n & item' & Hres & Hlook & Hid)].
    + destruct (String.eqb_spec productId (Product._id (CartItem.product item))) as [Heq|Hne].
      * right. exists 0%nat, item. rewrite Hres. split_and!; [lia | done | done].
      * left. split; [|done]. rewrite not_elem_of_cons. done.
    + right. exists (S n), item'. split_and!; [lia | done | done].
Qed.

Lemma lastIndexFrom_present productId items :
  productId ∈ lineIds items →
  ∃ (n : nat) item,
    lastIndexFrom productId items 0 (-1) = Z.of_nat n ∧
    items !! n = Some item ∧
    Product._id (CartItem.product item) = productId.
Proof.
  intros Hin.
  destruct (lastIndexFrom_spec productId items 0 (-1))
    as [[Hnot _]|(n & item & Hres & Hlook & Hid)]; [done|].
  exists n, item. split_and!; [lia | done | done].
Qed.

Lemma lastIndexFrom_absent productId items :
  productId ∉ lineIds items → lastIndexFrom productId items 0 (-1) = -1.
Proof.
  intros Hnot.
  destruct (lastIndexFrom_spec productId items 0 (-1))
    as [[_ Hres]|(n & item & _ & Hlook & Hid)]; [done|].
  exfalso. apply Hnot. unfold lineIds. rewrite list_elem_of_fmap.
  exists item. split; [done|]. by eapply list_elem_of_lookup_2.
Qed.

Lemma find_product_id productId ps p :
  find_product productId ps = Some p → Product._id p = productId.
Proof.
  unfold find_product. intros H. apply find_some in H as [_ H].
  by apply String.eqb_eq.
Qed.

(** ** The store *)

Lemma lookup_cart_put_cart c d :
  lookup_cart (Cart.email c) (put_cart c d) = Some c.
Proof.
  unfold lookup_cart, put_cart; simpl. rewrite lookup_insert_eq. by destruct c.
Qed.

Lemma lookup_cart_put_cart_ne c d email :
  email ≠ Cart.email c → lookup_cart email (put_cart c d) = lookup_cart email d.
Proof.
  intros Hne. unfold lookup_cart, put_cart; simpl. by rewrite lookup_insert_ne.
Qed.

Lemma lookup_cart_put_user u d email :
  lookup_cart email (put_user u d) = lookup_cart email d.
Proof. done. Qed.

Lemma lookup_cart_email email d c :
  lookup_cart email d = Some c → Cart.email c = email.
Proof.
  unfold lookup_cart. destruct (carts d !! email); simpl; [|done].
  by intros [= <-].
Qed.

Lemma lookup_cart_None email d :
  lookup_cart email d = None ↔ carts d !! email = None.
Proof. unfold lookup_cart. by destruct (carts d !! email). Qed.

(** ** The paths of [checkout] *)

Lemma checkout_no_cart user σ :
  lookup_cart (User.email user) (db σ) = None →
  checkout user σ = (Throw (ApiError NOT_FOUND "User does not have cart"), σ).
Proof. intros Hcart. by run_checkout Hcart. Qed.

Lemma checkout_empty user σ cart :
  lookup_cart (User.email user) (db σ) = Some cart →
  Cart.cartItems cart = [] →
  checkout user σ =
    (Throw (ApiError BAD_REQUEST "User does not have any Items in cart."), σ).
Proof. intros Hcart Hnil. run_checkout Hcart. by rewrite Hnil. Qed.

Lemma length_nonzero {A} (l : list A) :
  l ≠ [] → (Z.of_nat (length l) =? 0) = false.
Proof. destruct l; [done|]. intros _. simpl. lia. Qed.

Lemma checkout_no_address user σ cart :
  lookup_cart (User.email user) (db σ) = Some cart →
  Cart.cartItems cart ≠ [] →
  hasSetNonDefaultAddress user = false →
  checkout user σ = (Throw (ApiError BAD_REQUEST "user need to add address"), σ).
Proof.
  intros Hcart Hne Haddr. run_checkout Hcart.
  rewrite (length_nonzero _ Hne), Haddr. done.
Qed.

Lemma checkout_insufficient user σ cart :
  lookup_cart (User.email user) (db σ) = Some cart →
  Cart.cartItems cart ≠ [] →
  hasSetNonDefaultAddress user = true →
  User.walletMoney user < cartTotalFrom (Cart.cartItems cart) 0 →
  checkout user σ = (Throw (ApiError BAD_REQUEST "Insufficient wallet balance"), σ).
Proof.
  intros Hcart Hne Haddr Hlt. run_checkout Hcart.
  rewrite (length_nonzero _ Hne), Haddr; simpl.
  by rewrite (proj2 (Z.ltb_lt _ _) Hlt).
Qed.

Lemma checkout_ok user σ cart :
  lookup_cart (User.email user) (db σ) = Some cart →
  Cart.cartItems cart ≠ [] →
  hasSetNonDefaultAddress user = true →
  cartTotalFrom (Cart.cartItems cart) 0 ≤ User.walletMoney user →
  checkout user σ =
    (Ok (debited user (Cart.cartItems cart)),
     {| db := db σ;
        journal := journal σ;
        pending := pending σ ++
                     [SaveUser (debited user (Cart.cartItems cart));
                      SaveCart (cleared cart)] |}).
Proof.
  intros Hcart Hne Haddr Hle. run_checkout Hcart.
  rewrite (length_nonzero _ Hne), Haddr; simpl.
  rewrite (proj2 (Z.ltb_ge _ _) Hle).
  unfold User_save_unawaited, Cart_save_unawaited, detach, mret, M_ret,
    debited, cleared; simpl.
  by rewrite <- app_assoc.
Qed.

(** The world once the two writes of a successful checkout have landed. *)
Lemma checkout_landed_ok user σ cart :
  lookup_cart (User.email user) (db σ) = Some cart →
  Cart.cartItems cart ≠ [] →
  hasSetNonDefaultAddress user = true →
  cartTotalFrom (Cart.cartItems cart) 0 ≤ User.walletMoney user →
  checkout_landed user σ =
    {| db := put_cart (cleared cart)
               (put_user (debited user (Cart.cartItems cart)) (db σ));
       journal := journal σ ++
                    [SaveUser (debited user (Cart.cartItems cart));
                     SaveCart (cleared cart)];
       pending := pending σ |}.
Proof.
  intros Hcart Hne Haddr Hle. unfold checkout_landed, land_after.
  rewrite (checkout_ok user σ cart) by done. simpl.
  by rewrite drop_app_length, take_app_length.
Qed.

(** A call that returns the world it was given has nothing to land. *)
Lemma land_after_nothing σ : land_after (length (pending σ)) σ = σ.
Proof.
  unfold land_after. rewrite drop_all, firstn_all, app_nil_r. by destruct σ.
Qed.

Lemma checkout_landed_throw user σ e :
  checkout user σ = (Throw e, σ) → checkout_landed user σ = σ.
Proof.
  intros Hrun. unfold checkout_landed. rewrite Hrun. apply land_after_nothing.
Qed.

Lemma checkout_paths user σ : checkout_path user σ.
Proof.
  destruct (lookup_cart (User.email user) (db σ)) as [cart|] eqn:Hcart.
  - destruct (decide (Cart.cartItems cart = [])) as [Hnil|Hne].
    { eapply path_empty; eauto using checkout_empty. }
    destruct (hasSetNonDefaultAddress user) eqn:Haddr.
    + destruct (Z_lt_le_dec (User.walletMoney user)
                  (cartTotalFrom (Cart.cartItems cart) 0)).
      * eapply path_insufficient; eauto using checkout_insufficient.
      * eapply path_ok; eauto using checkout_ok.
    + eapply path_no_address; eauto using checkout_no_address.
  - apply path_no_cart; auto using checkout_no_cart.
Qed.

(** ** Checkout *)









(** C10. The second emptiness test of [checkout] never fires: no call
    throws "Empty cart, add products to checkout", and a cart without line
    items is rejected by the first test. *)
Theorem checkout_second_guard_dead (user : User.t) (σ : World) :
  (∀ code : Z,
     (checkout user σ).1 ≠
       Throw (ApiError code "Empty cart, add products to checkout")) ∧
  (∀ cart : Cart.t,
     lookup_cart (User.email user) (db σ) = Some cart →
     Cart.cartItems cart = [] →
     (checkout user σ).1 =
       Throw (ApiError BAD_REQUEST "User does not have any Items in cart.")).
Proof.
  split.
  - intros code.
    destruct (checkout_paths user σ)
      as [Hnone Hrun|c Hc Hnil Hrun|c Hc Hne Haddr Hrun|c Hc Hne Haddr Hlt Hrun
         |c Hc Hne Haddr Hle Hrun];
      rewrite Hrun; simpl; discriminate.
  - intros cart Hcart Hnil. by rewrite (checkout_empty user σ cart).
Qed.

Lemma checkout_second_guard_dead_witness :
  (checkout Example.alice Example.σ3).1 =
    Throw (ApiError BAD_REQUEST "User does not have any Items in cart.").
Proof.
  apply (proj2 (checkout_second_guard_dead Example.alice Example.σ3)
           (Cart.mk "alice@example.com" [] Example.dpo)).
  - vm_compute. reflexivity.
  - reflexivity.
Defined.

(** ** The paths of the cart operations *)

(** [addProductToCart] continued with a cart that was found. *)
Lemma add_found_present dpo cart user productId quantity σ :
  productId ∈ lineIds (Cart.cartItems cart) →
  addProductToCart_found dpo (Some cart) user productId quantity σ
    = (Throw (ApiError BAD_REQUEST already_in_cart), σ).
Proof.
  intros Hin. run_service.
  destruct (firstIndexFrom productId (Cart.cartItems cart) 0 =? -1) eqn:Hidx; [|done].
  apply Z.eqb_eq, firstIndexFrom_absent in Hidx; [done | lia].
Qed.

Lemma add_found_unknown dpo cart user productId quantity σ :
  productId ∉ lineIds (Cart.cartItems cart) →
  find_product productId (products (db σ)) = None →
  addProductToCart_found dpo (Some cart) user productId quantity σ
    = (Throw (ApiError BAD_REQUEST "Product doesn't exist in database"), σ).
Proof.
  intros Hnot Hfind. run_service.
  rewrite (proj2 (Z.eqb_eq _ _) (proj2 (firstIndexFrom_absent _ _ 0 (Z.le_refl 0)) Hnot)).
  by rewrite Hfind.
Qed.

Lemma add_found_push dpo cart user productId quantity σ product :
  productId ∉ lineIds (Cart.cartItems cart) →
  find_product productId (products (db σ)) = Some product →
  addProductToCart_found dpo (Some cart) user productId quantity σ
    = (Ok (pushed cart product quantity),
       stored (SaveCart (pushed cart product quantity)) σ).
Proof.
  intros Hnot Hfind. run_service.
  rewrite (proj2 (Z.eqb_eq _ _) (proj2 (firstIndexFrom_absent _ _ 0 (Z.le_refl 0)) Hnot)).
  by rewrite Hfind.
Qed.

(** [addProductToCart] continued after [Cart.findOne] answered [null]. *)
Lemma add_absent_taken dpo user productId quantity σ :
  is_Some (carts (db σ) !! User.email user) →
  addProductToCart_found dpo None user productId quantity σ
    = (Throw (ApiError INTERNAL_SERVER_ERROR
                "User cart creation failed because user already have a cart"), σ).
Proof. intros [row Hrow]. run_service. by rewrite Hrow. Qed.

Lemma add_absent_created dpo user productId quantity σ :
  carts (db σ) !! User.email user = None →
  addProductToCart_found dpo None user productId quantity σ
    = addProductToCart_found dpo (Some (Cart.mk (User.email user) [] dpo))
        user productId quantity
        (stored (InsertCart (Cart.mk (User.email user) [] dpo)) σ).
Proof. intros Hrow. run_service. by rewrite Hrow. Qed.

Lemma addProductToCart_unfold dpo user productId quantity σ :
  addProductToCart dpo user productId quantity σ
    = addProductToCart_found dpo (lookup_cart (User.email user) (db σ))
        user productId quantity σ.
Proof. done. Qed.

(** [updateProductInCart] and [deleteProductFromCart] on a cart that holds
    the product. *)
Lemma update_present user productId quantity σ cart :
  lookup_cart (User.email user) (db σ) = Some cart →
  is_Some (find_product productId (products (db σ))) →
  productId ∈ lineIds (Cart.cartItems cart) →
  ∃ (n : nat) (item : CartItem.t),
    Cart.cartItems cart !! n = Some item ∧
    Product._id (CartItem.product item) = productId ∧
    updateProductInCart user productId quantity σ
      = (Ok (Cart.mk (Cart.email cart)
               (setQuantity (Z.of_nat n) quantity (Cart.cartItems cart))
               (Cart.paymentOption cart)),
         stored (SaveCart (Cart.mk (Cart.email cart)
                             (setQuantity (Z.of_nat n) quantity (Cart.cartItems cart))
                             (Cart.paymentOption cart))) σ).
Proof.
  intros Hcart [product Hfind] Hin.
  destruct (lastIndexFrom_present _ _ Hin) as (n & item & Hidx & Hlook & Hid).
  exists n, item. split_and!; [done..|].
  run_service. rewrite Hcart; simpl. rewrite Hfind, Hidx.
  by destruct (Z.eqb_spec (Z.of_nat n) (-1)); [lia|].
Qed.

Lemma delete_present user productId σ cart :
  lookup_cart (User.email user) (db σ) = Some cart →
  productId ∈ lineIds (Cart.cartItems cart) →
  ∃ n : nat,
    deleteProductFromCart user productId σ
      = (Ok tt,
         stored (SaveCart (Cart.mk (Cart.email cart)
                             (splice1 (Z.of_nat n) (Cart.cartItems cart))
                             (Cart.paymentOption cart))) σ).
Proof.
  intros Hcart Hin.
  destruct (lastIndexFrom_present _ _ Hin) as (n & item & Hidx & Hlook & Hid).
  exists n. run_service. rewrite Hcart; simpl. rewrite Hidx.
  by destruct (Z.eqb_spec (Z.of_nat n) (-1)); [lia|].
Qed.

(** The failing paths of the two leave the world as it was. *)
Lemma update_throws user productId quantity σ :
  lookup_cart (User.email user) (db σ) = None ∨
  find_product productId (products (db σ)) = None ∨
  (∃ cart, lookup_cart (User.email user) (db σ) = Some cart ∧
           productId ∉ lineIds (Cart.cartItems cart)) →
  ∃ message : string,
    updateProductInCart user productId quantity σ
      = (Throw (ApiError BAD_REQUEST message), σ).
Proof.
  intros Hcase. run_service.
  destruct (lookup_cart (User.email user) (db σ)) as [cart|] eqn:Hcart; simpl;
    [|by eexists].
  destruct (find_product productId (products (db σ))) as [product|] eqn:Hfind;
    [|by eexists].
  destruct Hcase as [?|[?|(c & [= <-] & Hnot)]]; [done..|].
  rewrite (lastIndexFrom_absent _ _ Hnot). by eexists.
Qed.

Lemma delete_throws user productId σ :
  lookup_cart (User.email user) (db σ) = None ∨
  (∃ cart, lookup_cart (User.email user) (db σ) = Some cart ∧
           productId ∉ lineIds (Cart.cartItems cart)) →
  ∃ message : string,
    deleteProductFromCart user productId σ
      = (Throw (ApiError BAD_REQUEST message), σ).
Proof.
  intros Hcase. run_service.
  destruct (lookup_cart (User.email user) (db σ)) as [cart|] eqn:Hcart; simpl;
    [|by eexists].
  destruct Hcase as [?|(c & [= <-] & Hnot)]; [done|].
  rewrite (lastIndexFrom_absent _ _ Hnot). by eexists.
Qed.

(** ** Adding to a cart that does not exist yet *)

(** C5, as the service has it. When [Cart.findOne] found no cart,
    [addProductToCart] creates one without line items and with the default
    payment option: the first write it sends inserts that cart, and the user
    has a cart with that payment option afterwards. When the creation is
    rejected because the user has got a cart in the meantime, the call
    throws a 500 (INTERNAL_SERVER_ERROR), which is none of the kinds
    NotFound, InvalidRequest and Conflict, and writes nothing. *)
Theorem add_creates_cart_or_throws_500
    (dpo : string) (user : User.t) (productId : string) (quantity : Z) (σ : World) :
  (carts (db σ) !! User.email user = None →
   ∃ (rest : list DbWrite) (cart' : Cart.t),
     journal (addProductToCart_found dpo None user productId quantity σ).2
       = journal σ ++ InsertCart (Cart.mk (User.email user) [] dpo) :: rest ∧
     lookup_cart (User.email user)
       (db (addProductToCart_found dpo None user productId quantity σ).2)
       = Some cart' ∧
     Cart.paymentOption cart' = dpo) ∧
  (is_Some (carts (db σ) !! User.email user) →
   ∃ e : Exn,
     addProductToCart_found dpo None user productId quantity σ = (Throw e, σ) ∧
     e = ApiError INTERNAL_SERVER_ERROR
           "User cart creation failed because user already have a cart" ∧
     spec_error_kind e = None).
Proof.
  split.
  - intros Hnone. rewrite (add_absent_created _ _ _ _ _ Hnone).
    set (cart0 := Cart.mk (User.email user) [] dpo).
    set (σ1 := stored (InsertCart cart0) σ).
    assert (Hnot : productId ∉ lineIds (Cart.cartItems cart0))
      by apply not_elem_of_nil.
    destruct (find_product productId (products (db σ1))) as [product|] eqn:Hfind.
    + rewrite (add_found_push _ _ _ _ _ _ product Hnot Hfind); simpl.
      exists [SaveCart (pushed cart0 product quantity)], (pushed cart0 product quantity).
      split_and!; [by rewrite <- app_assoc | | done].
      apply (lookup_cart_put_cart (pushed cart0 product quantity)).
    + rewrite (add_found_unknown _ _ _ _ _ _ Hnot Hfind); simpl.
      exists [], cart0. split_and!; [done | | done].
      apply (lookup_cart_put_cart cart0).
  - intros Htaken. eexists. split; [by apply add_absent_taken|]. done.
Qed.

Lemma add_creates_cart_or_throws_500_witness :
  (∃ (rest : list DbWrite) (cart' : Cart.t),
     journal (addProductToCart_found Example.dpo None Example.alice "productA" 2
                Example.σ0).2
       = journal Example.σ0
           ++ InsertCart (Cart.mk "alice@example.com" [] Example.dpo) :: rest ∧
     lookup_cart "alice@example.com"
       (db (addProductToCart_found Example.dpo None Example.alice "productA" 2
              Example.σ0).2)
       = Some cart' ∧
     Cart.paymentOption cart' = Example.dpo) ∧
  (∃ e : Exn,
     addProductToCart_found Example.dpo None Example.alice "productB" 1 Example.σ2
       = (Throw e, Example.σ2) ∧
     e = ApiError INTERNAL_SERVER_ERROR
           "User cart creation failed because user already have a cart" ∧
     spec_error_kind e = None).
Proof.
  split.
  - apply (proj1 (add_creates_cart_or_throws_500 Example.dpo Example.alice
                    "productA" 2 Example.σ0)).
    vm_compute. reflexivity.
  - apply (proj2 (add_creates_cart_or_throws_500 Example.dpo Example.alice
                    "productB" 1 Example.σ2)).
    vm_compute. eexists. reflexivity.
Defined.

(** C5 as stated fails: a cart that appears between the lookup and the
    creation makes the call throw a 500, not a Conflict. *)
Lemma add_creation_failure_is_not_conflict :
  ∃ e : Exn,
    lookup_cart "alice@example.com" (db Example.σ2) ≠ None ∧
    addProductToCart_found Example.dpo None Example.alice "productB" 1 Example.σ2
      = (Throw e, Example.σ2) ∧
    e = ApiError 500 "User cart creation failed because user already have a cart" ∧
    spec_error_kind e ≠ Some Conflict.
Proof.
  eexists. split_and!; [| vm_compute; reflexivity | reflexivity | ].
  - vm_compute. discriminate.
  - vm_compute. discriminate.
Qed.

(** ** Updating a line item *)

(** C6. When the user's cart has a line item for [productId] and the
    catalogue has the product, [updateProductInCart] returns and stores a
    cart that is the old one except at one position: there the product is
    kept and the quantity is the given one. Length, order and every other
    line item are as before. *)
Theorem update_changes_one_quantity
    (user : User.t) (productId : string) (quantity : Z) (σ : World) (cart : Cart.t) :
  lookup_cart (User.email user) (db σ) = Some cart →
  productId ∈ lineIds (Cart.cartItems cart) →
  is_Some (find_product productId (products (db σ))) →
  ∃ (n : nat) (item : CartItem.t) (cart' : Cart.t) (σ' : World),
    updateProductInCart user productId quantity σ = (Ok cart', σ') ∧
    lookup_cart (User.email user) (db σ') = Some cart' ∧
    Cart.cartItems cart !! n = Some item ∧
    Product._id (CartItem.product item) = productId ∧
    Cart.cartItems cart' !! n = Some (CartItem.mk (CartItem.product item) quantity) ∧
    (∀ m : nat, m ≠ n → Cart.cartItems cart' !! m = Cart.cartItems cart !! m) ∧
    length (Cart.cartItems cart') = length (Cart.cartItems cart) ∧
    lineIds (Cart.cartItems cart') = lineIds (Cart.cartItems cart) ∧
    Cart.email cart' = Cart.email cart ∧
    Cart.paymentOption cart' = Cart.paymentOption cart.
Proof.
  intros Hcart Hin Hfind.
  destruct (update_present user productId quantity σ cart Hcart Hfind Hin)
    as (n & item & Hlook & Hid & Hrun).
  eexists n, item, _, _. split; [exact Hrun|].
  unfold setQuantity. rewrite Nat2Z.id. simpl.
  split_and!; [ | done | done | | | | | done | done].
  - rewrite <- (lookup_cart_email _ _ _ Hcart).
    apply (lookup_cart_put_cart (Cart.mk (Cart.email cart) _ _)).
  - by rewrite list_lookup_alter_eq, Hlook.
  - intros m Hm. by apply list_lookup_alter_ne.
  - apply length_alter.
  - unfold lineIds. apply list_eq. intros m.
    rewrite !list_lookup_fmap.
    destruct (decide (m = n)) as [->|Hm].
    + by rewrite list_lookup_alter_eq, Hlook.
    + by rewrite list_lookup_alter_ne.
Qed.

Lemma update_changes_one_quantity_witness :
  ∃ (n : nat) (item : CartItem.t) (cart' : Cart.t) (σ' : World),
    updateProductInCart Example.alice "productB" 7 Example.σ2 = (Ok cart', σ') ∧
    lookup_cart "alice@example.com" (db σ') = Some cart' ∧
    [CartItem.mk Example.productA 2; CartItem.mk Example.productB 1] !! n = Some item ∧
    Product._id (CartItem.product item) = "productB" ∧
    Cart.cartItems cart' !! n = Some (CartItem.mk (CartItem.product item) 7) ∧
    (∀ m : nat, m ≠ n →
       Cart.cartItems cart' !! m
         = [CartItem.mk Example.productA 2; CartItem.mk Example.productB 1] !! m) ∧
    length (Cart.cartItems cart') = 2%nat ∧
    lineIds (Cart.cartItems cart') = ["productA"; "productB"] ∧
    Cart.email cart' = "alice@example.com" ∧
    Cart.paymentOption cart' = Example.dpo.
Proof.
  apply (update_changes_one_quantity Example.alice "productB" 7 Example.σ2
           (Cart.mk "alice@example.com"
              [CartItem.mk Example.productA 2; CartItem.mk Example.productB 1]
              Example.dpo)).
  - vm_compute. reflexivity.
  - vm_compute. apply list_elem_of_further, list_elem_of_here.
  - vm_compute. eexists. reflexivity.
Defined.

(** ** Invariants of the carts *)

Section Invariant.

Variable P : list CartItem.t → Prop.
Hypothesis P_nil : P [].

Lemma carts_satisfy_put_cart c d :
  carts_satisfy P d → P (Cart.cartItems c) → carts_satisfy P (put_cart c d).
Proof.
  intros Hd Hc email cart.
  destruct (decide (email = Cart.email c)) as [->|Hne].
  - rewrite lookup_cart_put_cart. by intros [= <-].
  - rewrite lookup_cart_put_cart_ne by done. apply Hd.
Qed.

Lemma carts_satisfy_put_user u d :
  carts_satisfy P d → carts_satisfy P (put_user u d).
Proof. intros Hd email cart. rewrite lookup_cart_put_user. apply Hd. Qed.

Lemma add_found_keeps dpo cart user productId quantity σ :
  keeps P (AddItem user productId quantity) →
  carts_satisfy P (db σ) → P (Cart.cartItems cart) →
  carts_satisfy P
    (db (addProductToCart_found dpo (Some cart) user productId quantity σ).2).
Proof.
  intros Hkeep Hσ Hcart.
  destruct (decide (productId ∈ lineIds (Cart.cartItems cart))) as [Hin|Hnot].
  { by rewrite add_found_present. }
  destruct (find_product productId (products (db σ))) as [product|] eqn:Hfind.
  - rewrite (add_found_push _ _ _ _ _ _ product Hnot Hfind); simpl.
    apply carts_satisfy_put_cart; [done|]. simpl.
    apply Hkeep; [done..|]. by eapply find_product_id.
  - by rewrite add_found_unknown.
Qed.

Lemma add_keeps dpo user productId quantity σ :
  keeps P (AddItem user productId quantity) →
  carts_satisfy P (db σ) →
  carts_satisfy P (db (addProductToCart dpo user productId quantity σ).2).
Proof.
  intros Hkeep Hσ. rewrite addProductToCart_unfold.
  destruct (lookup_cart (User.email user) (db σ)) as [cart|] eqn:Hcart.
  - apply add_found_keeps; [done..|]. by eapply Hσ.
  - apply lookup_cart_None in Hcart.
    rewrite (add_absent_created _ _ _ _ _ Hcart).
    apply add_found_keeps; [done | | done].
    simpl. by apply carts_satisfy_put_cart.
Qed.

Lemma update_keeps user productId quantity σ :
  keeps P (UpdateItem user productId quantity) →
  carts_satisfy P (db σ) →
  carts_satisfy P (db (updateProductInCart user productId quantity σ).2).
Proof.
  intros Hkeep Hσ.
  destruct (lookup_cart (User.email user) (db σ)) as [cart|] eqn:Hcart;
    [|by destruct (update_throws user productId quantity σ) as [? ->]; auto].
  destruct (find_product productId (products (db σ))) as [product|] eqn:Hfind;
    [|by destruct (update_throws user productId quantity σ) as [? ->]; auto].
  destruct (decide (productId ∈ lineIds (Cart.cartItems cart))) as [Hin|Hnot];
    [|by destruct (update_throws user productId quantity σ) as [? ->]; eauto].
  destruct (update_present user productId quantity σ cart)
    as (n & item & _ & _ & ->); [done | by eexists | done |]. simpl.
  apply carts_satisfy_put_cart; [done|]. simpl. apply Hkeep. by eapply Hσ.
Qed.

Lemma delete_keeps user productId σ :
  keeps P (DeleteItem user productId) →
  carts_satisfy P (db σ) →
  carts_satisfy P (db (deleteProductFromCart user productId σ).2).
Proof.
  intros Hkeep Hσ.
  destruct (lookup_cart (User.email user) (db σ)) as [cart|] eqn:Hcart;
    [|by destruct (delete_throws user productId σ) as [? ->]; auto].
  destruct (decide (productId ∈ lineIds (Cart.cartItems cart))) as [Hin|Hnot];
    [|by destruct (delete_throws user productId σ) as [? ->]; eauto].
  destruct (delete_present user productId σ cart) as (n & ->); [done..|]. simpl.
  apply carts_satisfy_put_cart; [done|]. simpl. apply Hkeep. by eapply Hσ.
Qed.

Lemma checkout_keeps user σ :
  carts_satisfy P (db σ) → carts_satisfy P (db (checkout_landed user σ)).
Proof.
  intros Hσ.
  destruct (checkout_paths user σ)
    as [Hnone Hrun|c Hc Hnil Hrun|c Hc Hne Haddr Hrun|c Hc Hne Haddr Hlt Hrun
       |c Hc Hne Haddr Hle Hrun];
    try by rewrite (checkout_landed_throw _ _ _ Hrun).
  rewrite (checkout_landed_ok user σ c) by done. simpl.
  apply carts_satisfy_put_cart; [|done]. by apply carts_satisfy_put_user.
Qed.

Lemma serve_keeps dpo σ r :
  keeps P r → carts_satisfy P (db σ) → carts_satisfy P (db (serve dpo σ r)).
Proof.
  destruct r; simpl; intros Hkeep Hσ;
    auto using add_keeps, update_keeps, delete_keeps.
  by apply checkout_keeps.
Qed.

Lemma serve_all_keeps dpo rs σ :
  Forall (keeps P) rs → carts_satisfy P (db σ) →
  carts_satisfy P (db (serve_all dpo σ rs)).
Proof.
  revert σ. induction rs as [|r rs IH]; intros σ Hrs Hσ; simpl; [done|].
  apply Forall_cons in Hrs as [Hr Hrs].
  apply IH; [done|]. by apply serve_keeps.
Qed.

End Invariant.

Lemma carts_satisfy_initial P ps us : carts_satisfy P (db (initial ps us)).
Proof. intros email cart. unfold lookup_cart; simpl. by rewrite lookup_empty. Qed.

Lemma keeps_distinct_lines r : keeps distinct_lines r.
Proof.
  destruct r as [user pid q|user pid q|user pid|user]; simpl; [| | |done].
  - intros items product Hnd Hnot Hid. unfold distinct_lines, lineIds in *.
    rewrite fmap_app; simpl. apply NoDup_app. split_and!; [done | | ].
    + intros x Hx Hx'. apply list_elem_of_singleton in Hx'. congruence.
    + apply NoDup_singleton.
  - intros items n Hnd. unfold distinct_lines, lineIds, setQuantity in *.
    rewrite (list_fmap_alter _ _ id); [by rewrite list_alter_id|].
    by apply Forall_true.
  - intros items n Hnd. unfold distinct_lines, lineIds, splice1 in *.
    rewrite list_fmap_delete. eapply sublist_NoDup; [exact Hnd|apply sublist_delete].
Qed.

Lemma keeps_positive_quantities r :
  positive_request r → keeps positive_quantities r.
Proof.
  destruct r as [user pid q|user pid q|user pid|user]; simpl; intros Hq; [| | |done].
  - intros items product Hpos _ _. apply Forall_app. split; [done|].
    by apply Forall_singleton.
  - intros items n Hpos. unfold positive_quantities, setQuantity in *.
    rewrite Forall_lookup in *. intros m item.
    destruct (decide (m = Z.to_nat (Z.of_nat n))) as [->|Hm].
    + rewrite list_lookup_alter_eq. destruct (items !! _); [|done].
      simpl. by intros [= <-].
    + rewrite list_lookup_alter_ne by done. apply Hpos.
  - intros items n Hpos. unfold positive_quantities, splice1 in *.
    by apply Forall_delete.
Qed.

(** C7. In every cart reachable from a store without carts through add,
    update, delete and checkout requests, a product identifier occurs in at
    most one line item; and adding a product the cart already holds throws a
    400 (InvalidRequest) and leaves the world, hence the line and its
    quantity, as it was. *)
Theorem one_line_per_product
    (dpo : string) (ps : list Product.t) (us : gmap string User.t)
    (rs : list Request) :
  carts_satisfy distinct_lines (db (serve_all dpo (initial ps us) rs)) ∧
  (∀ (user : User.t) (productId : string) (quantity : Z) (cart : Cart.t),
     lookup_cart (User.email user) (db (serve_all dpo (initial ps us) rs)) = Some cart →
     productId ∈ lineIds (Cart.cartItems cart) →
     addProductToCart dpo user productId quantity (serve_all dpo (initial ps us) rs)
       = (Throw (ApiError BAD_REQUEST already_in_cart),
          serve_all dpo (initial ps us) rs) ∧
     spec_error_kind (ApiError BAD_REQUEST already_in_cart) = Some InvalidRequest).
Proof.
  split.
  - apply serve_all_keeps.
    + apply NoDup_nil_2.
    + apply Forall_forall. intros r _. apply keeps_distinct_lines.
    + apply carts_satisfy_initial.
  - intros user productId quantity cart Hcart Hin.
    rewrite addProductToCart_unfold, Hcart. split; [|done].
    by apply add_found_present.
Qed.

Lemma one_line_per_product_witness :
  distinct_lines [CartItem.mk Example.productA 2; CartItem.mk Example.productB 1] ∧
  addProductToCart Example.dpo Example.alice "productA" 5 Example.σ2
    = (Throw (ApiError BAD_REQUEST already_in_cart), Example.σ2).
Proof.
  pose proof (one_line_per_product Example.dpo
                [Example.productA; Example.productB] ∅
                [AddItem Example.alice "productA" 2;
                 AddItem Example.alice "productB" 1]) as [Hinv Hadd].
  split.
  - apply (Hinv "alice@example.com"
             (Cart.mk "alice@example.com"
                [CartItem.mk Example.productA 2; CartItem.mk Example.productB 1]
                Example.dpo)).
    vm_compute. reflexivity.
  - apply (Hadd Example.alice "productA" 5
             (Cart.mk "alice@example.com"
                [CartItem.mk Example.productA 2; CartItem.mk Example.productB 1]
                Example.dpo)).
    + vm_compute. reflexivity.
    + vm_compute. apply list_elem_of_here.
Defined.

(** C9, as the service has it. Neither [addProductToCart] nor
    [updateProductInCart] looks at the quantity. When every add and update
    request carries a positive quantity, every line item of every cart
    reachable from a store without carts has a positive quantity. *)
Theorem positive_requests_positive_quantities
    (dpo : string) (ps : list Product.t) (us : gmap string User.t)
    (rs : list Request) :
  Forall positive_request rs →
  carts_satisfy positive_quantities (db (serve_all dpo (initial ps us) rs)).
Proof.
  intros Hrs. apply serve_all_keeps.
  - apply Forall_nil_2.
  - eapply Forall_impl; [exact Hrs|]. apply keeps_positive_quantities.
  - apply carts_satisfy_initial.
Qed.

Lemma positive_requests_positive_quantities_witness :
  positive_quantities
    [CartItem.mk Example.productA 2; CartItem.mk Example.productB 1].
Proof.
  apply (positive_requests_positive_quantities Example.dpo
           [Example.productA; Example.productB] ∅
           [AddItem Example.alice "productA" 2; AddItem Example.alice "productB" 1]
           ltac:(repeat constructor)
           "alice@example.com"
           (Cart.mk "alice@example.com"
              [CartItem.mk Example.productA 2; CartItem.mk Example.productB 1]
              Example.dpo)).
  vm_compute. reflexivity.
Defined.

(** C9 as stated fails: a zero quantity is accepted by add, a negative one
    by update, and both end up in the stored cart. *)
Lemma nonpositive_quantity_stored :
  ∃ cart : Cart.t,
    lookup_cart "alice@example.com"
      (db (serve_all Example.dpo Example.σ0
             [AddItem Example.alice "productA" 0;
              AddItem Example.alice "productB" 1;
              UpdateItem Example.alice "productB" (-3)])) = Some cart ∧
    Cart.cartItems cart
      = [CartItem.mk Example.productA 0; CartItem.mk Example.productB (-3)] ∧
    ¬ positive_quantities (Cart.cartItems cart).
Proof.
  eexists. split_and!; [vm_compute; reflexivity | reflexivity |].
  simpl. intros H. apply Forall_cons in H as [H _]. simpl in H. lia.
Qed.

(** ** What checkout writes, and when *)

Lemma issued_none {A} (m : M A) σ r :
  m σ = (r, σ) → issued m σ = [].
Proof. intros Hrun. unfold issued. rewrite Hrun; simpl. apply drop_all. Qed.

Lemma issued_some {A} (m : M A) σ r d j ws :
  m σ = (r, {| db := d; journal := j; pending := pending σ ++ ws |}) →
  issued m σ = ws.
Proof. intros Hrun. unfold issued. rewrite Hrun; simpl. apply drop_app_length. Qed.

(** What can be taken, in any order, out of two writes. *)
Lemma submseteq_two (x y : DbWrite) (ws : list DbWrite) :
  ws ⊆+ [x; y] →
  ws = [] ∨ ws = [x] ∨ ws = [y] ∨ ws = [x; y] ∨ ws = [y; x].
Proof.
  intros Hsub. pose proof (submseteq_length _ _ Hsub) as Hlen.
  destruct ws as [|a [|b [|c ws]]]; simpl in Hlen; [by left | | | lia].
  - assert (Ha : a ∈ [x; y])
      by (eapply elem_of_submseteq; [apply list_elem_of_here | exact Hsub]).
    apply elem_of_cons in Ha as [->|Ha]; [auto|].
    apply list_elem_of_singleton in Ha as ->. auto.
  - apply submseteq_length_Permutation in Hsub; [|done].
    symmetry in Hsub. apply Permutation_length_2_inv in Hsub as [->| ->]; auto.
Qed.

Lemma put_user_put_cart u c d :
  put_user u (put_cart c d) = put_cart c (put_user u d).
Proof. done. Qed.

(** C2, as the service has it. [checkout] issues the debit and the clear
    as two writes, neither of them awaited and with no transaction around
    them. A call that throws issues nothing and the store stays as it was.
    After a successful call each of the two writes may have landed or not,
    in either order: the store can be the old one, the old one with only the
    wallet debited, the old one with only the cart cleared, or the one with
    both applied, and each of the four can be seen. *)
Theorem checkout_observable_states (user : User.t) (σ : World) (d : DB) :
  observable (checkout user) σ d →
  match (checkout user σ).1 with
  | Throw _ => d = db σ
  | Ok user' =>
      ∃ cart : Cart.t,
        lookup_cart (User.email user) (db σ) = Some cart ∧
        Cart.cartItems cart ≠ [] ∧
        user' = debited user (Cart.cartItems cart) ∧
        issued (checkout user) σ = [SaveUser user'; SaveCart (cleared cart)] ∧
        (d = db σ ∨
         d = put_user user' (db σ) ∨
         d = put_cart (cleared cart) (db σ) ∨
         d = put_cart (cleared cart) (put_user user' (db σ))) ∧
        observable (checkout user) σ (db σ) ∧
        observable (checkout user) σ (put_user user' (db σ)) ∧
        observable (checkout user) σ (put_cart (cleared cart) (db σ)) ∧
        observable (checkout user) σ
          (put_cart (cleared cart) (put_user user' (db σ)))
  end.
Proof.
  unfold observable. intros (ws & Hsub & ->).
  destruct (checkout_paths user σ)
    as [Hnone Hrun|c Hc Hnil Hrun|c Hc Hne Haddr Hrun|c Hc Hne Haddr Hlt Hrun
       |c Hc Hne Haddr Hle Hrun];
    try (rewrite (issued_none _ _ _ Hrun) in Hsub; rewrite Hrun; simpl;
         by apply submseteq_nil_r in Hsub as ->).
  rewrite (issued_some _ _ _ _ _ _ Hrun) in *. rewrite Hrun; simpl.
  exists c. split_and!; [done..| | | | |].
  - apply submseteq_two in Hsub as [->|[->|[->|[->| ->]]]]; simpl; auto.
  - exists []. split; [apply submseteq_nil_l | done].
  - exists [SaveUser (debited user (Cart.cartItems c))]. split; [|done].
    apply submseteq_skip, submseteq_nil_l.
  - exists [SaveCart (cleared c)]. split; [|done].
    apply submseteq_cons, submseteq_skip, submseteq_nil_l.
  - exists [SaveUser (debited user (Cart.cartItems c)); SaveCart (cleared c)].
    split; done.
Qed.

Lemma checkout_observable_states_witness :
  match (checkout Example.alice Example.σ2).1 with
  | Throw _ =>
      put_cart (cleared (Cart.mk "alice@example.com"
                           [CartItem.mk Example.productA 2;
                            CartItem.mk Example.productB 1] Example.dpo))
        (db Example.σ2) = db Example.σ2
  | Ok user' =>
      ∃ cart : Cart.t,
        lookup_cart (User.email Example.alice) (db Example.σ2) = Some cart ∧
        Cart.cartItems cart ≠ [] ∧
        user' = debited Example.alice (Cart.cartItems cart) ∧
        issued (checkout Example.alice) Example.σ2
          = [SaveUser user'; SaveCart (cleared cart)] ∧
        (put_cart (cleared (Cart.mk "alice@example.com"
                              [CartItem.mk Example.productA 2;
                               CartItem.mk Example.productB 1] Example.dpo))
           (db Example.σ2) = db Example.σ2 ∨
         put_cart (cleared (Cart.mk "alice@example.com"
                              [CartItem.mk Example.productA 2;
                               CartItem.mk Example.productB 1] Example.dpo))
           (db Example.σ2) = put_user user' (db Example.σ2) ∨
         put_cart (cleared (Cart.mk "alice@example.com"
                              [CartItem.mk Example.productA 2;
                               CartItem.mk Example.productB 1] Example.dpo))
           (db Example.σ2) = put_cart (cleared cart) (db Example.σ2) ∨
         put_cart (cleared (Cart.mk "alice@example.com"
                              [CartItem.mk Example.productA 2;
                               CartItem.mk Example.productB 1] Example.dpo))
           (db Example.σ2)
           = put_cart (cleared cart) (put_user user' (db Example.σ2))) ∧
        observable (checkout Example.alice) Example.σ2 (db Example.σ2) ∧
        observable (checkout Example.alice) Example.σ2
          (put_user user' (db Example.σ2)) ∧
        observable (checkout Example.alice) Example.σ2
          (put_cart (cleared cart) (db Example.σ2)) ∧
        observable (checkout Example.alice) Example.σ2
          (put_cart (cleared cart) (put_user user' (db Example.σ2)))
  end.
Proof.
  apply (checkout_observable_states Example.alice Example.σ2
           (put_cart (cleared (Cart.mk "alice@example.com"
                                 [CartItem.mk Example.productA 2;
                                  CartItem.mk Example.productB 1] Example.dpo))
              (db Example.σ2))).
  exists [SaveCart (cleared (Cart.mk "alice@example.com"
                               [CartItem.mk Example.productA 2;
                                CartItem.mk Example.productB 1] Example.dpo))].
  split.
  - replace (issued (checkout Example.alice) Example.σ2)
      with [SaveUser (User.mk "alice@example.com" 75 true);
            SaveCart (cleared (Cart.mk "alice@example.com"
                                 [CartItem.mk Example.productA 2;
                                  CartItem.mk Example.productB 1] Example.dpo))]
      by (vm_compute; reflexivity).
    apply submseteq_cons, submseteq_skip, submseteq_nil_l.
  - vm_compute. reflexivity.
Defined.

(** C2 as stated fails: once the first of the two writes has landed and
    the second has not, the store has the wallet debited to 75 and both line
    items still in the cart; that store is neither the one before the call
    nor the one with both writes applied. *)
Lemma checkout_debit_without_clear :
  ∃ d : DB,
    observable (checkout Example.alice) Example.σ2 d ∧
    users d !! "alice@example.com" = Some (User.mk "alice@example.com" 75 true) ∧
    lookup_cart "alice@example.com" d
      = Some (Cart.mk "alice@example.com"
                [CartItem.mk Example.productA 2; CartItem.mk Example.productB 1]
                Example.dpo) ∧
    d ≠ db Example.σ2 ∧
    d ≠ db (checkout_landed Example.alice Example.σ2).
Proof.
  exists (put_user (User.mk "alice@example.com" 75 true) (db Example.σ2)).
  split_and!.
  - exists [SaveUser (User.mk "alice@example.com" 75 true)]. split.
    + replace (issued (checkout Example.alice) Example.σ2)
        with [SaveUser (User.mk "alice@example.com" 75 true);
              SaveCart (cleared (Cart.mk "alice@example.com"
                                   [CartItem.mk Example.productA 2;
                                    CartItem.mk Example.productB 1] Example.dpo))]
        by (vm_compute; reflexivity).
      apply submseteq_skip, submseteq_nil_l.
    + vm_compute. reflexivity.
  - vm_compute. reflexivity.
  - vm_compute. reflexivity.
  - intros Heq. apply (f_equal (λ d, users d !! "alice@example.com")) in Heq.
    vm_compute in Heq. discriminate.
  - intros Heq. apply (f_equal (lookup_cart "alice@example.com")) in Heq.
    vm_compute in Heq. discriminate.
Qed.

(** ** Where the price comes from *)




(** * Further properties of the cart service *)

(** ** Helpers *)

Lemma lineIds_setQuantity index quantity items :
  lineIds (setQuantity index quantity items) = lineIds items.
Proof.
  unfold lineIds, setQuantity.
  rewrite (list_fmap_alter _ _ id); [by rewrite list_alter_id|].
  by apply Forall_true.
Qed.

(** The last-match loop only looks at the product identifiers. *)
Lemma lastIndexFrom_ids productId items items' i index :
  lineIds items = lineIds items' →
  lastIndexFrom productId items i index = lastIndexFrom productId items' i index.
Proof.
  revert items' i index.
  induction items as [|item rest IH]; intros [|item' rest'] i index Hids;
    simpl in *; try done.
  injection Hids as Hid Hrest. rewrite Hid. by apply IH.
Qed.

Lemma lastIndexFrom_snoc productId items item i index :
  Product._id (CartItem.product item) = productId →
  lastIndexFrom productId (items ++ [item]) i index = i + Z.of_nat (length items).
Proof.
  intros Hid. revert i index.
  induction items as [|x rest IH]; intros i index; simpl.
  - rewrite <- Hid, String.eqb_refl. lia.
  - rewrite IH. lia.
Qed.

Lemma splice1_snoc items item :
  splice1 (Z.of_nat (length items)) (items ++ [item]) = items.
Proof.
  unfold splice1. rewrite Nat2Z.id, delete_take_drop.
  rewrite take_app_length, drop_ge; [apply app_nil_r|].
  rewrite length_app; simpl. lia.
Qed.

Lemma put_cart_put_cart c c' d :
  Cart.email c = Cart.email c' → put_cart c (put_cart c' d) = put_cart c d.
Proof.
  intros Heq. unfold put_cart; simpl. by rewrite Heq, insert_insert_eq.
Qed.

Lemma put_cart_stored email c d :
  lookup_cart email d = Some c → put_cart c d = d.
Proof.
  unfold lookup_cart, put_cart. destruct d as [cs us ps]; simpl.
  destruct (cs !! email) as [[items po]|] eqn:Hrow; simpl; [|done].
  intros [= <-]; simpl. by rewrite insert_id.
Qed.

Lemma getCartByUser_stored user σ cart :
  lookup_cart (User.email user) (db σ) = Some cart →
  getCartByUser user σ = (Ok cart, σ).
Proof. intros Hcart. run_service. by rewrite Hcart. Qed.

Lemma getCartByUser_missing user σ :
  lookup_cart (User.email user) (db σ) = None →
  getCartByUser user σ = (Throw (ApiError NOT_FOUND "User does not have a cart"), σ).
Proof. intros Hcart. run_service. by rewrite Hcart. Qed.

Lemma update_run user productId quantity σ cart :
  lookup_cart (User.email user) (db σ) = Some cart →
  is_Some (find_product productId (products (db σ))) →
  lastIndexFrom productId (Cart.cartItems cart) 0 (-1) ≠ -1 →
  updateProductInCart user productId quantity σ
    = (Ok (Cart.mk (Cart.email cart)
             (setQuantity (lastIndexFrom productId (Cart.cartItems cart) 0 (-1))
                quantity (Cart.cartItems cart))
             (Cart.paymentOption cart)),
       stored (SaveCart
                 (Cart.mk (Cart.email cart)
                    (setQuantity (lastIndexFrom productId (Cart.cartItems cart) 0 (-1))
                       quantity (Cart.cartItems cart))
                    (Cart.paymentOption cart))) σ).
Proof.
  intros Hcart [product Hfind] Hidx. run_service.
  rewrite Hcart; simpl. rewrite Hfind.
  by destruct (Z.eqb_spec (lastIndexFrom productId (Cart.cartItems cart) 0 (-1)) (-1)).
Qed.

Lemma delete_run user productId σ cart :
  lookup_cart (User.email user) (db σ) = Some cart →
  lastIndexFrom productId (Cart.cartItems cart) 0 (-1) ≠ -1 →
  deleteProductFromCart user productId σ
    = (Ok tt,
       stored (SaveCart
                 (Cart.mk (Cart.email cart)
                    (splice1 (lastIndexFrom productId (Cart.cartItems cart) 0 (-1))
                       (Cart.cartItems cart))
                    (Cart.paymentOption cart))) σ).
Proof.
  intros Hcart Hidx. run_service. rewrite Hcart; simpl.
  by destruct (Z.eqb_spec (lastIndexFrom productId (Cart.cartItems cart) 0 (-1)) (-1)).
Qed.

(** ** Adding *)

(** X1. Adding a catalogue product that the user's cart does not hold yet
    succeeds: the returned cart is the old one with one line item for that
    product and quantity appended at the end, the payment option is kept,
    the users collection is untouched, and [getCartByUser] afterwards
    returns that very cart. *)
Theorem add_appends_line
    (dpo : string) (user : User.t) (productId : string) (quantity : Z)
    (σ : World) (cart : Cart.t) (product : Product.t) :
  lookup_cart (User.email user) (db σ) = Some cart →
  productId ∉ lineIds (Cart.cartItems cart) →
  find_product productId (products (db σ)) = Some product →
  ∃ (cart' : Cart.t) (σ' : World),
    addProductToCart dpo user productId quantity σ = (Ok cart', σ') ∧
    Cart.cartItems cart' = Cart.cartItems cart ++ [CartItem.mk product quantity] ∧
    Product._id product = productId ∧
    Cart.paymentOption cart' = Cart.paymentOption cart ∧
    users (db σ') = users (db σ) ∧
    journal σ' = journal σ ++ [SaveCart cart'] ∧
    getCartByUser user σ' = (Ok cart', σ').
Proof.
  intros Hcart Hnot Hfind.
  exists (pushed cart product quantity),
         (stored (SaveCart (pushed cart product quantity)) σ).
  rewrite addProductToCart_unfold, Hcart.
  split; [by apply add_found_push|].
  split_and!; [done | by eapply find_product_id | done | done | done |].
  apply getCartByUser_stored; simpl.
  rewrite <- (lookup_cart_email _ _ _ Hcart).
  apply (lookup_cart_put_cart (pushed cart product quantity)).
Qed.

Lemma add_appends_line_witness :
  ∃ (cart' : Cart.t) (σ' : World),
    addProductToCart Example.dpo Example.alice "productB" 3
      (serve Example.dpo Example.σ0 (AddItem Example.alice "productA" 2))
      = (Ok cart', σ') ∧
    Cart.cartItems cart'
      = [CartItem.mk Example.productA 2] ++ [CartItem.mk Example.productB 3] ∧
    Product._id Example.productB = "productB" ∧
    Cart.paymentOption cart' = Example.dpo ∧
    users (db σ')
      = users (db (serve Example.dpo Example.σ0 (AddItem Example.alice "productA" 2))) ∧
    journal σ'
      = journal (serve Example.dpo Example.σ0 (AddItem Example.alice "productA" 2))
          ++ [SaveCart cart'] ∧
    getCartByUser Example.alice σ' = (Ok cart', σ').
Proof.
  apply (add_appends_line Example.dpo Example.alice "productB" 3
           (serve Example.dpo Example.σ0 (AddItem Example.alice "productA" 2))
           (Cart.mk "alice@example.com" [CartItem.mk Example.productA 2] Example.dpo)
           Example.productB).
  - vm_compute. reflexivity.
  - vm_compute. intros H. apply list_elem_of_singleton in H. discriminate.
  - vm_compute. reflexivity.
Defined.

(** X2. The first add of a user without a cart, for a catalogue product,
    sends exactly two writes: the insert of the empty cart and the save of
    the cart with its single line item; the cart returned has the user's
    email, that one line item and the default payment option. *)
Theorem add_first_line
    (dpo : string) (user : User.t) (productId : string) (quantity : Z)
    (σ : World) (product : Product.t) :
  lookup_cart (User.email user) (db σ) = None →
  find_product productId (products (db σ)) = Some product →
  ∃ σ' : World,
    addProductToCart dpo user productId quantity σ
      = (Ok (Cart.mk (User.email user) [CartItem.mk product quantity] dpo), σ') ∧
    journal σ'
      = journal σ ++
          [InsertCart (Cart.mk (User.email user) [] dpo);
           SaveCart (Cart.mk (User.email user) [CartItem.mk product quantity] dpo)] ∧
    lookup_cart (User.email user) (db σ')
      = Some (Cart.mk (User.email user) [CartItem.mk product quantity] dpo).
Proof.
  intros Hcart Hfind.
  rewrite addProductToCart_unfold, Hcart.
  rewrite add_absent_created by (by apply lookup_cart_None).
  rewrite (add_found_push _ _ _ _ _ _ product); [| apply not_elem_of_nil | done].
  eexists. split; [reflexivity|]. simpl. split.
  - by rewrite <- app_assoc.
  - apply (lookup_cart_put_cart (Cart.mk (User.email user) _ dpo)).
Qed.

Lemma add_first_line_witness :
  ∃ σ' : World,
    addProductToCart Example.dpo Example.alice "productA" 2 Example.σ0
      = (Ok (Cart.mk "alice@example.com" [CartItem.mk Example.productA 2] Example.dpo),
         σ') ∧
    journal σ'
      = journal Example.σ0 ++
          [InsertCart (Cart.mk "alice@example.com" [] Example.dpo);
           SaveCart (Cart.mk "alice@example.com"
                       [CartItem.mk Example.productA 2] Example.dpo)] ∧
    lookup_cart "alice@example.com" (db σ')
      = Some (Cart.mk "alice@example.com" [CartItem.mk Example.productA 2] Example.dpo).
Proof.
  apply (add_first_line Example.dpo Example.alice "productA" 2 Example.σ0
           Example.productA).
  - vm_compute. reflexivity.
  - vm_compute. reflexivity.
Defined.

(** X3. Adding a product the catalogue does not have throws a 400
    ("Product doesn't exist in database"). For a user who has a cart (not
    holding that identifier) nothing changes; for a user without a cart the
    failed call has nevertheless created and stored an empty cart, which
    [getCartByUser] then returns. *)
Theorem add_unknown_product
    (dpo : string) (user : User.t) (productId : string) (quantity : Z) (σ : World) :
  find_product productId (products (db σ)) = None →
  (∀ cart : Cart.t,
     lookup_cart (User.email user) (db σ) = Some cart →
     productId ∉ lineIds (Cart.cartItems cart) →
     addProductToCart dpo user productId quantity σ
       = (Throw (ApiError BAD_REQUEST "Product doesn't exist in database"), σ)) ∧
  (lookup_cart (User.email user) (db σ) = None →
   ∃ σ' : World,
     addProductToCart dpo user productId quantity σ
       = (Throw (ApiError BAD_REQUEST "Product doesn't exist in database"), σ') ∧
     journal σ' = journal σ ++ [InsertCart (Cart.mk (User.email user) [] dpo)] ∧
     getCartByUser user σ' = (Ok (Cart.mk (User.email user) [] dpo), σ')).
Proof.
  intros Hfind. split.
  - intros cart Hcart Hnot. rewrite addProductToCart_unfold, Hcart.
    by apply add_found_unknown.
  - intros Hcart. rewrite addProductToCart_unfold, Hcart.
    rewrite add_absent_created by (by apply lookup_cart_None).
    rewrite add_found_unknown; [| apply not_elem_of_nil | done].
    eexists. split; [reflexivity|]. split; [done|].
    apply getCartByUser_stored; simpl.
    apply (lookup_cart_put_cart (Cart.mk (User.email user) [] dpo)).
Qed.

Lemma add_unknown_product_witness :
  ∃ σ' : World,
    addProductToCart Example.dpo Example.alice "productZ" 1 Example.σ0
      = (Throw (ApiError BAD_REQUEST "Product doesn't exist in database"), σ') ∧
    journal σ'
      = journal Example.σ0 ++ [InsertCart (Cart.mk "alice@example.com" [] Example.dpo)] ∧
    getCartByUser Example.alice σ'
      = (Ok (Cart.mk "alice@example.com" [] Example.dpo), σ').
Proof.
  apply (proj2 (add_unknown_product Example.dpo Example.alice "productZ" 1 Example.σ0
                  ltac:(vm_compute; reflexivity))).
  vm_compute. reflexivity.
Defined.

(** X4. Whatever [Cart.findOne] answered, [addProductToCart] throws one
    of three errors only: the 400 "already in cart", the 400 "doesn't exist
    in database", or the 500 of the catch around [Cart.create]. The 500 is
    thrown only when no cart had been found, and then nothing has been
    written. The [cart == null] test that follows the creation never fires:
    the 500 "User does not have a cart" is never thrown. *)
Theorem add_error_cases
    (dpo : string) (found : option Cart.t) (user : User.t) (productId : string)
    (quantity : Z) (σ : World) (e : Exn) :
  (addProductToCart_found dpo found user productId quantity σ).1 = Throw e →
  e ≠ ApiError INTERNAL_SERVER_ERROR "User does not have a cart" ∧
  (e = ApiError BAD_REQUEST already_in_cart ∨
   e = ApiError BAD_REQUEST "Product doesn't exist in database" ∨
   (found = None ∧
    e = ApiError INTERNAL_SERVER_ERROR
          "User cart creation failed because user already have a cart" ∧
    (addProductToCart_found dpo found user productId quantity σ).2 = σ)).
Proof.
  assert (Hfound : ∀ cart σ1,
    (addProductToCart_found dpo (Some cart) user productId quantity σ1).1 = Throw e →
    e = ApiError BAD_REQUEST already_in_cart ∨
    e = ApiError BAD_REQUEST "Product doesn't exist in database").
  { intros cart σ1.
    destruct (decide (productId ∈ lineIds (Cart.cartItems cart))) as [Hin|Hnot].
    { rewrite add_found_present by done. simpl. intros [= <-]. by left. }
    destruct (find_product productId (products (db σ1))) as [product|] eqn:Hfind.
    - rewrite (add_found_push _ _ _ _ _ _ product) by done. done.
    - rewrite add_found_unknown by done. simpl. intros [= <-]. by right. }
  assert (Hcases :
    (addProductToCart_found dpo found user productId quantity σ).1 = Throw e →
    e = ApiError BAD_REQUEST already_in_cart ∨
    e = ApiError BAD_REQUEST "Product doesn't exist in database" ∨
    (found = None ∧
     e = ApiError INTERNAL_SERVER_ERROR
           "User cart creation failed because user already have a cart" ∧
     (addProductToCart_found dpo found user productId quantity σ).2 = σ)).
  { destruct found as [cart|].
    - intros Hthrow. destruct (Hfound _ _ Hthrow); auto.
    - destruct (carts (db σ) !! User.email user) as [row|] eqn:Hrow.
      + rewrite add_absent_taken by (by eexists). simpl. intros [= <-].
        right. right. done.
      + rewrite add_absent_created by done.
        intros Hthrow. destruct (Hfound _ _ Hthrow); auto. }
  intros Hthrow. split; [|by apply Hcases].
  destruct (Hcases Hthrow) as [->|[->|(_ & -> & _)]]; discriminate.
Qed.

Lemma add_error_cases_witness :
  ApiError INTERNAL_SERVER_ERROR
    "User cart creation failed because user already have a cart"
    ≠ ApiError INTERNAL_SERVER_ERROR "User does not have a cart" ∧
  (ApiError INTERNAL_SERVER_ERROR
     "User cart creation failed because user already have a cart"
     = ApiError BAD_REQUEST already_in_cart ∨
   ApiError INTERNAL_SERVER_ERROR
     "User cart creation failed because user already have a cart"
     = ApiError BAD_REQUEST "Product doesn't exist in database" ∨
   (@None Cart.t = None ∧
    ApiError INTERNAL_SERVER_ERROR
      "User cart creation failed because user already have a cart"
      = ApiError INTERNAL_SERVER_ERROR
          "User cart creation failed because user already have a cart" ∧
    (addProductToCart_found Example.dpo None Example.alice "productB" 1
       Example.σ2).2 = Example.σ2)).
Proof.
  apply (add_error_cases Example.dpo None Example.alice "productB" 1 Example.σ2).
  vm_compute. reflexivity.
Defined.

(** ** Updating and deleting *)

(** X5. [updateProductInCart] rejects, each time with a 400 and without
    changing the world: a user without a cart; then a product the catalogue
    does not have, even when the cart holds a line item for it; then a
    catalogue product the cart does not hold. *)
Theorem update_rejects
    (user : User.t) (productId : string) (quantity : Z) (σ : World) :
  (lookup_cart (User.email user) (db σ) = None →
   updateProductInCart user productId quantity σ
     = (Throw (ApiError BAD_REQUEST
                 "User does not have a cart. Use POST to create cart and add a product"),
        σ)) ∧
  (is_Some (lookup_cart (User.email user) (db σ)) →
   find_product productId (products (db σ)) = None →
   updateProductInCart user productId quantity σ
     = (Throw (ApiError BAD_REQUEST "Product doesn't exist in database"), σ)) ∧
  (∀ cart : Cart.t,
     lookup_cart (User.email user) (db σ) = Some cart →
     is_Some (find_product productId (products (db σ))) →
     productId ∉ lineIds (Cart.cartItems cart) →
     updateProductInCart user productId quantity σ
       = (Throw (ApiError BAD_REQUEST "Product not in cart"), σ)).
Proof.
  split_and!.
  - intros Hcart. run_service. by rewrite Hcart.
  - intros [cart Hcart] Hfind. run_service. rewrite Hcart; simpl. by rewrite Hfind.
  - intros cart Hcart [product Hfind] Hnot. run_service.
    rewrite Hcart; simpl. rewrite Hfind. by rewrite (lastIndexFrom_absent _ _ Hnot).
Qed.

(** A line item whose product has left the catalogue can no longer be
    updated. *)
Lemma update_rejects_witness :
  updateProductInCart Example.alice "productA" 9
    (with_products [Example.productB] Example.σ2)
    = (Throw (ApiError BAD_REQUEST "Product doesn't exist in database"),
       with_products [Example.productB] Example.σ2).
Proof.
  apply (proj1 (proj2 (update_rejects Example.alice "productA" 9
                         (with_products [Example.productB] Example.σ2)))).
  - vm_compute. eexists. reflexivity.
  - vm_compute. reflexivity.
Defined.

(** X6. Updates overwrite: updating a product's quantity twice in a row
    returns the same result and leaves the same store as the second update
    alone, whether the updates succeed or throw. *)
Theorem update_overwrites
    (user : User.t) (productId : string) (q1 q2 : Z) (σ : World) :
  (updateProductInCart user productId q2
     (updateProductInCart user productId q1 σ).2).1
    = (updateProductInCart user productId q2 σ).1 ∧
  db (updateProductInCart user productId q2
        (updateProductInCart user productId q1 σ).2).2
    = db (updateProductInCart user productId q2 σ).2.
Proof.
  destruct (lookup_cart (User.email user) (db σ)) as [cart|] eqn:Hcart;
    [|by destruct (update_throws user productId q1 σ) as [? ->]; auto].
  destruct (find_product productId (products (db σ))) as [product|] eqn:Hfind;
    [|by destruct (update_throws user productId q1 σ) as [? ->]; auto].
  destruct (decide (productId ∈ lineIds (Cart.cartItems cart))) as [Hin|Hnot];
    [|by destruct (update_throws user productId q1 σ) as [? ->]; eauto].
  assert (Hidx : lastIndexFrom productId (Cart.cartItems cart) 0 (-1) ≠ -1).
  { destruct (lastIndexFrom_present _ _ Hin) as (n & _ & -> & _). lia. }
  rewrite (update_run user productId q1 σ cart) by eauto. simpl.
  rewrite (update_run user productId q2 σ cart) by eauto. simpl.
  set (index := lastIndexFrom productId (Cart.cartItems cart) 0 (-1)) in *.
  set (cart1 := Cart.mk (Cart.email cart)
                  (setQuantity index q1 (Cart.cartItems cart))
                  (Cart.paymentOption cart)).
  assert (Hcart1 : lookup_cart (User.email user)
                     (db (stored (SaveCart cart1) σ)) = Some cart1).
  { simpl. rewrite <- (lookup_cart_email _ _ _ Hcart).
    apply (lookup_cart_put_cart cart1). }
  assert (Hidx1 : lastIndexFrom productId (Cart.cartItems cart1) 0 (-1) = index).
  { apply lastIndexFrom_ids, lineIds_setQuantity. }
  rewrite (update_run user productId q2 _ cart1) by (rewrite ?Hidx1; eauto).
  rewrite Hidx1. simpl. unfold setQuantity. rewrite list_alter_alter_eq.
  split; [done|]. unfold put_cart; simpl. by rewrite insert_insert_eq.
Qed.

(** X7. Deleting a product the cart holds succeeds, whether or not the
    catalogue still has the product: the stored cart is the old one without
    the line item at one position, which held that product; the other line
    items keep their order, the payment option is kept, and when no product
    occurred twice the product is no longer in the cart. *)
Theorem delete_removes_one_line
    (user : User.t) (productId : string) (σ : World) (cart : Cart.t) :
  lookup_cart (User.email user) (db σ) = Some cart →
  productId ∈ lineIds (Cart.cartItems cart) →
  ∃ (n : nat) (item : CartItem.t) (cart' : Cart.t) (σ' : World),
    deleteProductFromCart user productId σ = (Ok tt, σ') ∧
    lookup_cart (User.email user) (db σ') = Some cart' ∧
    Cart.cartItems cart !! n = Some item ∧
    Product._id (CartItem.product item) = productId ∧
    Cart.cartItems cart'
      = take n (Cart.cartItems cart) ++ drop (S n) (Cart.cartItems cart) ∧
    S (length (Cart.cartItems cart')) = length (Cart.cartItems cart) ∧
    Cart.paymentOption cart' = Cart.paymentOption cart ∧
    (distinct_lines (Cart.cartItems cart) →
     productId ∉ lineIds (Cart.cartItems cart')).
Proof.
  intros Hcart Hin.
  destruct (lastIndexFrom_present _ _ Hin) as (n & item & Hidx & Hlook & Hid).
  exists n, item,
    (Cart.mk (Cart.email cart) (delete n (Cart.cartItems cart))
       (Cart.paymentOption cart)).
  eexists. split.
  { run_service. rewrite Hcart; simpl. rewrite Hidx.
    destruct (Z.eqb_spec (Z.of_nat n) (-1)); [lia|].
    unfold splice1. rewrite Nat2Z.id. reflexivity. }
  simpl. split_and!; [ | done | done | apply delete_take_drop | | done | ].
  - rewrite <- (lookup_cart_email _ _ _ Hcart).
    apply (lookup_cart_put_cart (Cart.mk (Cart.email cart) _ _)).
  - rewrite length_delete by eauto.
    apply lookup_lt_Some in Hlook. lia.
  - unfold distinct_lines, lineIds. intros Hnd.
    rewrite list_fmap_delete, delete_take_drop.
    assert (Hmid : ((λ item, Product._id (CartItem.product item))
                      <$> Cart.cartItems cart) !! n = Some productId).
    { by rewrite list_lookup_fmap, Hlook; simpl; rewrite Hid. }
    rewrite <- (take_drop_middle _ _ _ Hmid) in Hnd.
    apply NoDup_app in Hnd as (_ & Hleft & Hright).
    apply NoDup_cons in Hright as [Hright _].
    rewrite not_elem_of_app. split; [|done].
    intros Hl. apply (Hleft _ Hl). apply list_elem_of_here.
Qed.

Lemma delete_removes_one_line_witness :
  ∃ (n : nat) (item : CartItem.t) (cart' : Cart.t) (σ' : World),
    deleteProductFromCart Example.alice "productA" Example.σ2 = (Ok tt, σ') ∧
    lookup_cart "alice@example.com" (db σ') = Some cart' ∧
    [CartItem.mk Example.productA 2; CartItem.mk Example.productB 1] !! n = Some item ∧
    Product._id (CartItem.product item) = "productA" ∧
    Cart.cartItems cart'
      = take n [CartItem.mk Example.productA 2; CartItem.mk Example.productB 1]
          ++ drop (S n) [CartItem.mk Example.productA 2; CartItem.mk Example.productB 1] ∧
    S (length (Cart.cartItems cart')) = 2%nat ∧
    Cart.paymentOption cart' = Example.dpo ∧
    (distinct_lines [CartItem.mk Example.productA 2; CartItem.mk Example.productB 1] →
     "productA" ∉ lineIds (Cart.cartItems cart')).
Proof.
  apply (delete_removes_one_line Example.alice "productA" Example.σ2
           (Cart.mk "alice@example.com"
              [CartItem.mk Example.productA 2; CartItem.mk Example.productB 1]
              Example.dpo)).
  - vm_compute. reflexivity.
  - vm_compute. apply list_elem_of_here.
Defined.

(** X8. [deleteProductFromCart] rejects a user without a cart and a product
    the cart does not hold, each with a 400 and without changing the
    world. *)
Theorem delete_rejects (user : User.t) (productId : string) (σ : World) :
  (lookup_cart (User.email user) (db σ) = None →
   deleteProductFromCart user productId σ
     = (Throw (ApiError BAD_REQUEST "User does not have a cart"), σ)) ∧
  (∀ cart : Cart.t,
     lookup_cart (User.email user) (db σ) = Some cart →
     productId ∉ lineIds (Cart.cartItems cart) →
     deleteProductFromCart user productId σ
       = (Throw (ApiError BAD_REQUEST "Product not in cart"), σ)).
Proof.
  split.
  - intros Hcart. run_service. by rewrite Hcart.
  - intros cart Hcart Hnot. run_service. rewrite Hcart; simpl.
    by rewrite (lastIndexFrom_absent _ _ Hnot).
Qed.

Lemma delete_rejects_witness :
  deleteProductFromCart Example.alice "productA" Example.σ3
    = (Throw (ApiError BAD_REQUEST "Product not in cart"), Example.σ3).
Proof.
  apply (proj2 (delete_rejects Example.alice "productA" Example.σ3)
           (Cart.mk "alice@example.com" [] Example.dpo)).
  - vm_compute. reflexivity.
  - vm_compute. apply not_elem_of_nil.
Defined.

(** X9. Adding a product to an existing cart and deleting it again gives
    back the store the two calls started from. *)
Theorem add_then_delete_restores
    (dpo : string) (user : User.t) (productId : string) (quantity : Z)
    (σ : World) (cart : Cart.t) :
  lookup_cart (User.email user) (db σ) = Some cart →
  productId ∉ lineIds (Cart.cartItems cart) →
  is_Some (find_product productId (products (db σ))) →
  (deleteProductFromCart user productId
     (addProductToCart dpo user productId quantity σ).2).1 = Ok tt ∧
  db (deleteProductFromCart user productId
        (addProductToCart dpo user productId quantity σ).2).2 = db σ.
Proof.
  intros Hcart Hnot [product Hfind].
  rewrite addProductToCart_unfold, Hcart.
  rewrite (add_found_push _ _ _ _ _ _ product Hnot Hfind); simpl.
  set (cart1 := pushed cart product quantity).
  assert (Hcart1 : lookup_cart (User.email user)
                     (db (stored (SaveCart cart1) σ)) = Some cart1).
  { simpl. rewrite <- (lookup_cart_email _ _ _ Hcart).
    apply (lookup_cart_put_cart cart1). }
  assert (Hidx : lastIndexFrom productId (Cart.cartItems cart1) 0 (-1)
                 = Z.of_nat (length (Cart.cartItems cart))).
  { simpl. rewrite lastIndexFrom_snoc; [lia|]. by eapply find_product_id. }
  rewrite (delete_run user productId _ cart1 Hcart1) by lia.
  rewrite Hidx. simpl. split; [done|].
  rewrite splice1_snoc.
  rewrite (put_cart_put_cart (Cart.mk _ _ _) cart1) by done.
  replace (Cart.mk (Cart.email cart) (Cart.cartItems cart) (Cart.paymentOption cart))
    with cart by (by destruct cart).
  by eapply put_cart_stored.
Qed.

Lemma add_then_delete_restores_witness :
  (deleteProductFromCart Example.alice "productB"
     (addProductToCart Example.dpo Example.alice "productB" 4
        (serve Example.dpo Example.σ0 (AddItem Example.alice "productA" 2))).2).1
    = Ok tt ∧
  db (deleteProductFromCart Example.alice "productB"
        (addProductToCart Example.dpo Example.alice "productB" 4
           (serve Example.dpo Example.σ0 (AddItem Example.alice "productA" 2))).2).2
    = db (serve Example.dpo Example.σ0 (AddItem Example.alice "productA" 2)).
Proof.
  apply (add_then_delete_restores Example.dpo Example.alice "productB" 4
           (serve Example.dpo Example.σ0 (AddItem Example.alice "productA" 2))
           (Cart.mk "alice@example.com" [CartItem.mk Example.productA 2] Example.dpo)).
  - vm_compute. reflexivity.
  - vm_compute. intros H. apply list_elem_of_singleton in H. discriminate.
  - vm_compute. eexists. reflexivity.
Defined.

(** ** More on checkout *)

(** X10. The clear of a successful checkout is not awaited. As long as it
    has not landed the cart still holds its items: a second checkout for the
    same email, made when the first has returned, succeeds again whenever
    the address flag of the user object it is given is set and that object's
    wallet covers the total, and it issues a second debit and a second
    clear. Once the writes of the first call have landed, a second checkout
    throws a 400 ("User does not have any Items in cart.") and changes
    nothing. *)
Theorem checkout_twice (user user2 : User.t) (σ : World) (user' : User.t) :
  (checkout user σ).1 = Ok user' →
  User.email user2 = User.email user →
  (∀ cart : Cart.t,
     lookup_cart (User.email user) (db σ) = Some cart →
     hasSetNonDefaultAddress user2 = true →
     cartTotalFrom (Cart.cartItems cart) 0 ≤ User.walletMoney user2 →
     checkout user2 (checkout user σ).2
       = (Ok (debited user2 (Cart.cartItems cart)),
          {| db := db σ; journal := journal σ;
             pending := pending σ ++
                          [SaveUser user'; SaveCart (cleared cart);
                           SaveUser (debited user2 (Cart.cartItems cart));
                           SaveCart (cleared cart)] |})) ∧
  checkout user2 (checkout_landed user σ)
    = (Throw (ApiError BAD_REQUEST "User does not have any Items in cart."),
       checkout_landed user σ).
Proof.
  intros Hok Hmail.
  destruct (checkout_paths user σ)
    as [Hnone Hrun|c Hc Hnil Hrun|c Hc Hne Haddr Hrun|c Hc Hne Haddr Hlt Hrun
       |c Hc Hne Haddr Hle Hrun];
    rewrite Hrun in Hok; simpl in Hok; try discriminate.
  injection Hok as <-. split.
  - intros cart Hcart Haddr2 Hle2. assert (cart = c) as -> by congruence.
    rewrite Hrun; simpl.
    rewrite (checkout_ok user2 _ c); simpl; [| by rewrite Hmail | done..].
    by rewrite <- app_assoc.
  - rewrite (checkout_landed_ok user σ c) by done.
    apply (checkout_empty _ _ (cleared c)); [|done]. simpl.
    rewrite Hmail, <- (lookup_cart_email _ _ _ Hc).
    apply (lookup_cart_put_cart (cleared c)).
Qed.

Lemma checkout_twice_witness :
  checkout (User.mk "alice@example.com" 75 true) (checkout Example.alice Example.σ2).2
    = (Ok (debited (User.mk "alice@example.com" 75 true)
             [CartItem.mk Example.productA 2; CartItem.mk Example.productB 1]),
       {| db := db Example.σ2; journal := journal Example.σ2;
          pending :=
            pending Example.σ2 ++
              [SaveUser (User.mk "alice@example.com" 75 true);
               SaveCart (cleared (Cart.mk "alice@example.com"
                                    [CartItem.mk Example.productA 2;
                                     CartItem.mk Example.productB 1] Example.dpo));
               SaveUser (debited (User.mk "alice@example.com" 75 true)
                           [CartItem.mk Example.productA 2;
                            CartItem.mk Example.productB 1]);
               SaveCart (cleared (Cart.mk "alice@example.com"
                                    [CartItem.mk Example.productA 2;
                                     CartItem.mk Example.productB 1] Example.dpo))] |}).
Proof.
  apply (proj1 (checkout_twice Example.alice (User.mk "alice@example.com" 75 true)
                  Example.σ2 (User.mk "alice@example.com" 75 true)
                  ltac:(vm_compute; reflexivity) ltac:(reflexivity))
           (Cart.mk "alice@example.com"
              [CartItem.mk Example.productA 2; CartItem.mk Example.productB 1]
              Example.dpo)).
  - vm_compute. reflexivity.
  - reflexivity.
  - vm_compute. discriminate.
Defined.

(** X11. Whenever [checkout] throws, the world is what it was, and the
    error is a 404 ("User does not have cart") exactly when the user has no
    cart and a 400 otherwise; no other status is thrown. *)
Theorem checkout_errors (user : User.t) (σ : World) (e : Exn) :
  (checkout user σ).1 = Throw e →
  (checkout user σ).2 = σ ∧
  ((lookup_cart (User.email user) (db σ) = None ∧
    e = ApiError NOT_FOUND "User does not have cart" ∧
    spec_error_kind e = Some NotFound) ∨
   (is_Some (lookup_cart (User.email user) (db σ)) ∧
    (∃ message : string, e = ApiError BAD_REQUEST message) ∧
    spec_error_kind e = Some InvalidRequest)).
Proof.
  destruct (checkout_paths user σ)
    as [Hnone Hrun|c Hc Hnil Hrun|c Hc Hne Haddr Hrun|c Hc Hne Haddr Hlt Hrun
       |c Hc Hne Haddr Hle Hrun];
    rewrite Hrun; simpl; intros [= <-]; (split; [done|]).
  - left. done.
  - right. split_and!; [by eexists | by eexists | done].
  - right. split_and!; [by eexists | by eexists | done].
  - right. split_and!; [by eexists | by eexists | done].
Qed.

Lemma checkout_errors_witness :
  (checkout Example.alice Example.σ0).2 = Example.σ0 ∧
  ((lookup_cart "alice@example.com" (db Example.σ0) = None ∧
    ApiError NOT_FOUND "User does not have cart"
      = ApiError NOT_FOUND "User does not have cart" ∧
    spec_error_kind (ApiError NOT_FOUND "User does not have cart") = Some NotFound) ∨
   (is_Some (lookup_cart "alice@example.com" (db Example.σ0)) ∧
    (∃ message : string,
       ApiError NOT_FOUND "User does not have cart" = ApiError BAD_REQUEST message) ∧
    spec_error_kind (ApiError NOT_FOUND "User does not have cart")
      = Some InvalidRequest)).
Proof.
  apply (checkout_errors Example.alice Example.σ0
           (ApiError NOT_FOUND "User does not have cart")).
  vm_compute. reflexivity.
Defined.



(** ** What a request leaves alone *)

Lemma cart_effect_refl dpo e d : cart_effect dpo e d d.
Proof.
  split_and!; [done..|].
  destruct (lookup_cart e d) as [cart|] eqn:Hcart; [|by left].
  exists cart. split_and!; [done..|]. by apply lines_same.
Qed.

Lemma cart_effect_put dpo d d1 cart cart' :
  carts d1 = carts d → products d1 = products d →
  lookup_cart (Cart.email cart') d = Some cart →
  Cart.paymentOption cart' = Cart.paymentOption cart →
  line_change (products d) (Cart.cartItems cart) (Cart.cartItems cart') →
  cart_effect dpo (Cart.email cart') d (put_cart cart' d1).
Proof.
  intros Hcarts Hps Hcart Hpo Hlines. split_and!; simpl; [done | |].
  - intros e' Hne. by rewrite lookup_insert_ne, Hcarts.
  - rewrite Hcart. exists cart'. split_and!; [|done..].
    apply lookup_cart_put_cart.
Qed.

Lemma cart_effect_create dpo d d1 cart' :
  (∀ e', e' ≠ Cart.email cart' → carts d1 !! e' = carts d !! e') →
  products d1 = products d →
  lookup_cart (Cart.email cart') d = None →
  Cart.paymentOption cart' = dpo →
  line_change (products d) [] (Cart.cartItems cart') →
  cart_effect dpo (Cart.email cart') d (put_cart cart' d1).
Proof.
  intros Hcarts Hps Hcart Hpo Hlines. split_and!; simpl; [done | |].
  - intros e' Hne. rewrite lookup_insert_ne by done. by apply Hcarts.
  - rewrite Hcart. right. exists cart'. split_and!; [|done..].
    apply lookup_cart_put_cart.
Qed.

Lemma add_effect dpo user productId quantity σ :
  cart_effect dpo (User.email user) (db σ)
    (db (addProductToCart dpo user productId quantity σ).2).
Proof.
  rewrite addProductToCart_unfold.
  destruct (lookup_cart (User.email user) (db σ)) as [cart|] eqn:Hcart.
  - destruct (decide (productId ∈ lineIds (Cart.cartItems cart))) as [Hin|Hnot].
    { rewrite add_found_present by done. apply cart_effect_refl. }
    destruct (find_product productId (products (db σ))) as [product|] eqn:Hfind.
    + rewrite (add_found_push _ _ _ _ _ _ product Hnot Hfind); simpl.
      pose proof (lookup_cart_email _ _ _ Hcart) as Hmail.
  rewrite <- Hmail in *.
      apply (cart_effect_put dpo (db σ) (db σ) cart (pushed cart product quantity));
        [done..|].
      by apply (lines_push _ _ _ productId product quantity).
    + rewrite add_found_unknown by done. apply cart_effect_refl.
  - rewrite add_absent_created by (by apply lookup_cart_None).
    set (cart0 := Cart.mk (User.email user) [] dpo).
    destruct (find_product productId (products (db σ))) as [product|] eqn:Hfind.
    + rewrite (add_found_push _ _ _ _ _ _ product);
        [| apply not_elem_of_nil | done]. simpl.
      apply (cart_effect_create dpo (db σ) (put_cart cart0 (db σ))
               (pushed cart0 product quantity)); simpl; [ | done..|].
      * intros e' Hne. by rewrite lookup_insert_ne.
      * apply (lines_push _ _ _ productId product quantity);
          [apply not_elem_of_nil | exact Hfind | done].
    + rewrite add_found_unknown; [| apply not_elem_of_nil | done]. simpl.
      apply (cart_effect_create dpo (db σ) (db σ) cart0); simpl; [done..|].
      by apply lines_same.
Qed.

Lemma update_effect dpo user productId quantity σ :
  cart_effect dpo (User.email user) (db σ)
    (db (updateProductInCart user productId quantity σ).2).
Proof.
  destruct (lookup_cart (User.email user) (db σ)) as [cart|] eqn:Hcart;
    [|destruct (update_throws user productId quantity σ) as [? ->];
      [auto | apply cart_effect_refl]].
  destruct (find_product productId (products (db σ))) as [product|] eqn:Hfind;
    [|destruct (update_throws user productId quantity σ) as [? ->];
      [auto | apply cart_effect_refl]].
  destruct (decide (productId ∈ lineIds (Cart.cartItems cart))) as [Hin|Hnot];
    [|destruct (update_throws user productId quantity σ) as [? ->];
      [eauto | apply cart_effect_refl]].
  destruct (update_present user productId quantity σ cart)
    as (n & item & _ & _ & ->); [done | by eexists | done |]. simpl.
  pose proof (lookup_cart_email _ _ _ Hcart) as Hmail.
  rewrite <- Hmail in *.
  apply (cart_effect_put dpo (db σ) (db σ) cart (Cart.mk (Cart.email cart) _ _));
    [done..|].
  by apply (lines_set _ _ _ n quantity).
Qed.

Lemma delete_effect dpo user productId σ :
  cart_effect dpo (User.email user) (db σ)
    (db (deleteProductFromCart user productId σ).2).
Proof.
  destruct (lookup_cart (User.email user) (db σ)) as [cart|] eqn:Hcart;
    [|destruct (delete_throws user productId σ) as [? ->];
      [auto | apply cart_effect_refl]].
  destruct (decide (productId ∈ lineIds (Cart.cartItems cart))) as [Hin|Hnot];
    [|destruct (delete_throws user productId σ) as [? ->];
      [eauto | apply cart_effect_refl]].
  destruct (delete_present user productId σ cart) as (n & ->); [done..|]. simpl.
  pose proof (lookup_cart_email _ _ _ Hcart) as Hmail.
  rewrite <- Hmail in *.
  apply (cart_effect_put dpo (db σ) (db σ) cart (Cart.mk (Cart.email cart) _ _));
    [done..|].
  by apply (lines_splice _ _ _ n).
Qed.

Lemma checkout_effect dpo user σ :
  cart_effect dpo (User.email user) (db σ) (db (checkout_landed user σ)).
Proof.
  destruct (checkout_paths user σ)
    as [Hnone Hrun|c Hc Hnil Hrun|c Hc Hne Haddr Hrun|c Hc Hne Haddr Hlt Hrun
       |c Hc Hne Haddr Hle Hrun];
    try (rewrite (checkout_landed_throw _ _ _ Hrun); apply cart_effect_refl).
  rewrite (checkout_landed_ok user σ c) by done. simpl.
  pose proof (lookup_cart_email _ _ _ Hc) as Hmail.
  rewrite <- Hmail in *.
  apply (cart_effect_put dpo (db σ) _ c (cleared c)); [done..|].
  by apply lines_clear.
Qed.

Lemma serve_effect dpo σ r :
  cart_effect dpo (User.email (request_user r)) (db σ) (db (serve dpo σ r)).
Proof.
  destruct r; simpl;
    auto using add_effect, update_effect, delete_effect.
  apply checkout_effect.
Qed.

(** The users collection is written by checkout only, and only under the
    email of the user checked out. *)
Lemma serve_users dpo σ r :
  (∀ e' : string, e' ≠ User.email (request_user r) →
     users (db (serve dpo σ r)) !! e' = users (db σ) !! e') ∧
  ((∀ user, r ≠ Checkout user) → users (db (serve dpo σ r)) = users (db σ)).
Proof.
  destruct r as [user pid q|user pid q|user pid|user]; simpl.
  - assert (users (db (addProductToCart dpo user pid q σ).2) = users (db σ)) as ->;
      [|done].
    rewrite addProductToCart_unfold.
    assert (Hfound : ∀ cart σ1,
      users (db (addProductToCart_found dpo (Some cart) user pid q σ1).2)
        = users (db σ1)).
    { intros cart σ1.
      destruct (decide (pid ∈ lineIds (Cart.cartItems cart))) as [Hin|Hnot].
      { by rewrite add_found_present. }
      destruct (find_product pid (products (db σ1))) as [product|] eqn:Hfind.
      - by rewrite (add_found_push _ _ _ _ _ _ product).
      - by rewrite add_found_unknown. }
    destruct (lookup_cart (User.email user) (db σ)) as [cart|] eqn:Hcart; [done|].
    rewrite add_absent_created by (by apply lookup_cart_None). by rewrite Hfound.
  - assert (users (db (updateProductInCart user pid q σ).2) = users (db σ)) as ->;
      [|done].
    run_service.
    destruct (lookup_cart (User.email user) (db σ)) as [cart|]; simpl; [|done].
    destruct (find_product pid (products (db σ))); [|done].
    by destruct (_ =? _).
  - assert (users (db (deleteProductFromCart user pid σ).2) = users (db σ)) as ->;
      [|done].
    run_service.
    destruct (lookup_cart (User.email user) (db σ)) as [cart|]; simpl; [|done].
    by destruct (_ =? _).
  - split; [|intros Hno; by destruct (Hno user)].
    intros e' Hne.
    change (users (db (checkout_landed user σ)) !! e' = users (db σ) !! e').
    destruct (checkout_paths user σ)
      as [Hnone Hrun|c Hc Hnil Hrun|c Hc Hne' Haddr Hrun|c Hc Hne' Haddr Hlt Hrun
         |c Hc Hne' Haddr Hle Hrun];
      try by rewrite (checkout_landed_throw _ _ _ Hrun).
    rewrite (checkout_landed_ok user σ c) by done. simpl.
    by rewrite lookup_insert_ne.
Qed.

Lemma serve_other_cart dpo σ r e' :
  e' ≠ User.email (request_user r) →
  lookup_cart e' (db (serve dpo σ r)) = lookup_cart e' (db σ).
Proof.
  intros Hne. destruct (serve_effect dpo σ r) as (_ & Hframe & _).
  unfold lookup_cart. by rewrite Hframe.
Qed.

Lemma serve_keeps_cart dpo σ r e cart :
  lookup_cart e (db σ) = Some cart →
  ∃ cart' : Cart.t,
    lookup_cart e (db (serve dpo σ r)) = Some cart' ∧
    Cart.paymentOption cart' = Cart.paymentOption cart ∧
    line_change (products (db σ)) (Cart.cartItems cart) (Cart.cartItems cart').
Proof.
  intros Hcart.
  destruct (decide (e = User.email (request_user r))) as [->|Hne].
  - destruct (serve_effect dpo σ r) as (_ & _ & Hown). by rewrite Hcart in Hown.
  - exists cart. rewrite serve_other_cart by done.
    split_and!; [done..|]. by apply lines_same.
Qed.

Lemma serve_all_products dpo rs σ :
  products (db (serve_all dpo σ rs)) = products (db σ).
Proof.
  revert σ. induction rs as [|r rs IH]; intros σ; simpl; [done|].
  rewrite IH. by destruct (serve_effect dpo σ r) as (-> & _).
Qed.

(** X13. A request made for one user leaves every other user's cart and
    stored user document as they are, and no request changes the
    catalogue; add, update and delete do not write to the users collection
    at all. *)
Theorem request_touches_own_data_only
    (dpo : string) (σ : World) (r : Request) (e' : string) :
  e' ≠ User.email (request_user r) →
  lookup_cart e' (db (serve dpo σ r)) = lookup_cart e' (db σ) ∧
  users (db (serve dpo σ r)) !! e' = users (db σ) !! e' ∧
  products (db (serve dpo σ r)) = products (db σ) ∧
  ((∀ user : User.t, r ≠ Checkout user) →
   users (db (serve dpo σ r)) = users (db σ)).
Proof.
  intros Hne. split_and!.
  - by apply serve_other_cart.
  - by apply serve_users.
  - by destruct (serve_effect dpo σ r) as (-> & _).
  - apply serve_users.
Qed.

Lemma request_touches_own_data_only_witness :
  lookup_cart "alice@example.com"
    (db (serve Example.dpo Example.σ2
           (AddItem (User.mk "bob@example.com" 10 true) "productA" 1)))
    = lookup_cart "alice@example.com" (db Example.σ2) ∧
  users (db (serve Example.dpo Example.σ2
               (AddItem (User.mk "bob@example.com" 10 true) "productA" 1)))
    !! "alice@example.com"
    = users (db Example.σ2) !! "alice@example.com" ∧
  products (db (serve Example.dpo Example.σ2
                  (AddItem (User.mk "bob@example.com" 10 true) "productA" 1)))
    = products (db Example.σ2) ∧
  ((∀ user : User.t,
      AddItem (User.mk "bob@example.com" 10 true) "productA" 1 ≠ Checkout user) →
   users (db (serve Example.dpo Example.σ2
                (AddItem (User.mk "bob@example.com" 10 true) "productA" 1)))
     = users (db Example.σ2)).
Proof.
  apply (request_touches_own_data_only Example.dpo Example.σ2
           (AddItem (User.mk "bob@example.com" 10 true) "productA" 1)
           "alice@example.com").
  simpl. discriminate.
Defined.

(** X14. A cart, once stored, is never removed and never changes its
    payment option: after any sequence of add, update, delete and checkout
    requests, by any users, the email still has a cart with the same payment
    option. *)
Theorem cart_outlives_requests
    (dpo : string) (rs : list Request) (σ : World) (e : string) (cart : Cart.t) :
  lookup_cart e (db σ) = Some cart →
  ∃ cart' : Cart.t,
    lookup_cart e (db (serve_all dpo σ rs)) = Some cart' ∧
    Cart.paymentOption cart' = Cart.paymentOption cart.
Proof.
  revert σ cart. induction rs as [|r rs IH]; intros σ cart Hcart; simpl.
  - by exists cart.
  - destruct (serve_keeps_cart dpo σ r e cart Hcart) as (cart1 & Hcart1 & Hpo & _).
    destruct (IH _ _ Hcart1) as (cart' & Hcart' & Hpo').
    exists cart'. split; [done|]. congruence.
Qed.

Lemma cart_outlives_requests_witness :
  ∃ cart' : Cart.t,
    lookup_cart "alice@example.com"
      (db (serve_all Example.dpo Example.σ2
             [DeleteItem Example.alice "productA"; Checkout Example.alice;
              DeleteItem Example.alice "productB"])) = Some cart' ∧
    Cart.paymentOption cart' = Example.dpo.
Proof.
  apply (cart_outlives_requests Example.dpo
           [DeleteItem Example.alice "productA"; Checkout Example.alice;
            DeleteItem Example.alice "productB"]
           Example.σ2 "alice@example.com"
           (Cart.mk "alice@example.com"
              [CartItem.mk Example.productA 2; CartItem.mk Example.productB 1]
              Example.dpo)).
  vm_compute. reflexivity.
Defined.






Lemma serve_no_cart dpo σ r e :
  lookup_cart e (db σ) = None → ¬ adds_for e r →
  lookup_cart e (db (serve dpo σ r)) = None.
Proof.
  intros Hnone Hadd.
  destruct (decide (e = User.email (request_user r))) as [->|Hne];
    [|by rewrite serve_other_cart].
  destruct r as [user pid q|user pid q|user pid|user]; simpl in *.
  - by destruct Hadd.
  - destruct (update_throws user pid q σ) as [? ->]; auto.
  - destruct (delete_throws user pid σ) as [? ->]; auto.
  - change (lookup_cart (User.email user) (db (checkout_landed user σ)) = None).
    by rewrite (checkout_landed_throw _ _ _ (checkout_no_cart _ _ Hnone)).
Qed.

(** X16. Carts come into being through the owner's add only: for a user
    without a cart, after any sequence of requests none of which is an add
    for that user's email, [getCartByUser] throws a 404 ("User does not
    have a cart") and leaves the world as it is. *)
Theorem getCart_404_without_add
    (dpo : string) (rs : list Request) (σ : World) (user : User.t) :
  lookup_cart (User.email user) (db σ) = None →
  Forall (λ r, ¬ adds_for (User.email user) r) rs →
  getCartByUser user (serve_all dpo σ rs)
    = (Throw (ApiError NOT_FOUND "User does not have a cart"), serve_all dpo σ rs) ∧
  spec_error_kind (ApiError NOT_FOUND "User does not have a cart") = Some NotFound.
Proof.
  intros Hnone Hrs. split; [|done]. apply getCartByUser_missing.
  revert σ Hnone. induction Hrs as [|r rs Hr _ IH]; intros σ Hnone; simpl; [done|].
  apply IH. by apply serve_no_cart.
Qed.

Lemma getCart_404_without_add_witness :
  getCartByUser (User.mk "bob@example.com" 10 true)
    (serve_all Example.dpo Example.σ0
       [AddItem Example.alice "productA" 2;
        UpdateItem (User.mk "bob@example.com" 10 true) "productA" 1;
        Checkout (User.mk "bob@example.com" 10 true)])
    = (Throw (ApiError NOT_FOUND "User does not have a cart"),
       serve_all Example.dpo Example.σ0
         [AddItem Example.alice "productA" 2;
          UpdateItem (User.mk "bob@example.com" 10 true) "productA" 1;
          Checkout (User.mk "bob@example.com" 10 true)]) ∧
  spec_error_kind (ApiError NOT_FOUND "User does not have a cart") = Some NotFound.
Proof.
  apply (getCart_404_without_add Example.dpo
           [AddItem Example.alice "productA" 2;
            UpdateItem (User.mk "bob@example.com" 10 true) "productA" 1;
            Checkout (User.mk "bob@example.com" 10 true)]
           Example.σ0 (User.mk "bob@example.com" 10 true)).
  - vm_compute. reflexivity.
  - repeat constructor; simpl; (discriminate || tauto).
Defined.

(** * The passport strategy *)

(** X17. [jwtVerify] never hands [done] a user other than the one the token
    names: in every call of [done] that carries a user, the error argument
    is [null] and the user's id is the token's [sub]. *)
Theorem jwtVerify_passes_only_the_subject
    (ACCESS : string) (payload : Passport.Payload) (answer : Passport.FindAnswer)
    (err info : option string) (user : Passport.UserDoc) :
  Passport.done err (Passport.TheUser user) info
    ∈ Passport.calls (Passport.jwtVerify ACCESS payload answer) →
  Passport.id user = Passport.sub payload ∧ err = None ∧ info = None.
Proof.
  intros Hin. apply list_elem_of_In in Hin. unfold Passport.jwtVerify in Hin.
  destruct (negb (String.eqb (Passport.type payload) ACCESS));
    destruct answer as [e|[u|]]; simpl in Hin;
    try destruct (String.eqb_spec (Passport.id u) (Passport.sub payload));
    simpl in Hin;
    repeat (destruct Hin as [Hin|Hin]; [try discriminate|]); try done;
    by injection Hin as <- <- <-.
Qed.

Lemma jwtVerify_passes_only_the_subject_witness :
  Passport.id (Passport.mkUserDoc "u1" Example.alice)
    = Passport.sub (Passport.mkPayload "access" "u1") ∧
  @None string = None ∧ @None string = None.
Proof.
  apply (jwtVerify_passes_only_the_subject "access"
           (Passport.mkPayload "access" "u1")
           (Passport.FindDoc (Some (Passport.mkUserDoc "u1" Example.alice)))
           None None (Passport.mkUserDoc "u1" Example.alice)).
  vm_compute. apply list_elem_of_here.
Defined.

(** X18. A token whose type is not the access type is reported to [done]
    with the error "Invalid token type", but the function does not stop
    there: the user is still looked up, and when the lookup finds the user
    the token names, [done] is called a second time, with that user and no
    error. *)
Theorem jwtVerify_wrong_type_goes_on
    (ACCESS : string) (payload : Passport.Payload) (user : Passport.UserDoc) :
  Passport.type payload ≠ ACCESS →
  Passport.id user = Passport.sub payload →
  Passport.jwtVerify ACCESS payload (Passport.FindDoc (Some user))
    = Passport.mkOutcome
        [Passport.done (Some "Invalid token type") Passport.FalseUser None;
         Passport.done None (Passport.TheUser user) None]
        None.
Proof.
  intros Htype Hid. unfold Passport.jwtVerify.
  destruct (String.eqb_spec (Passport.type payload) ACCESS); [done|].
  destruct (String.eqb_spec (Passport.id user) (Passport.sub payload)); done.
Qed.

Lemma jwtVerify_wrong_type_goes_on_witness :
  Passport.jwtVerify "access" (Passport.mkPayload "refresh" "u1")
    (Passport.FindDoc (Some (Passport.mkUserDoc "u1" Example.alice)))
    = Passport.mkOutcome
        [Passport.done (Some "Invalid token type") Passport.FalseUser None;
         Passport.done None (Passport.TheUser (Passport.mkUserDoc "u1" Example.alice))
           None]
        None.
Proof.
  apply (jwtVerify_wrong_type_goes_on "access" (Passport.mkPayload "refresh" "u1")
           (Passport.mkUserDoc "u1" Example.alice)).
  - simpl. discriminate.
  - reflexivity.
Defined.


